(** * Data selection page of framework-evalanche: pipeline runner and input validation

    Shallow embedding of [src/framework-evalanche/data.py]:
    - [pipeline_runner]: tags the input table with ROW_ID, streams it in
      batches, calls a stored procedure once per row on a thread pool, joins
      the collected results back to the tagged table and appends them to the
      output table;
    - [validate_data_inputs] and [preview_merge_data]: session-state checks
      and the joined-data preview dialog.

    Python effects are modelled by a small state-and-exception monad over a
    [World] holding the output table and a trace of observable events
    (stored procedure calls, [st.error] messages, joins, writes). *)

From Stdlib Require Import ZArith List String Ascii Bool Lia.
Import ListNotations.
Open Scope string_scope.
Open Scope list_scope.

(** ** Values, rows and tables *)

Inductive Value : Type :=
| VNull
| VInt (z : Z)
| VStr (s : string).

Definition Value_eqb (a b : Value) : bool :=
  match a, b with
  | VNull, VNull => true
  | VInt x, VInt y => Z.eqb x y
  | VStr x, VStr y => String.eqb x y
  | _, _ => false
  end.

(** A pandas row as produced by [iterrows]: column name to scalar value
    ([row.to_dict()]). *)
Definition Row := list (string * Value).

(** [row[k]]: the value of column [k]; [None] is pandas' KeyError. *)
Fixpoint row_get (r : Row) (k : string) : option Value :=
  match r with
  | [] => None
  | (c, v) :: r' => if String.eqb c k then Some v else row_get r' k
  end.

(** A Snowpark table: its column names and its rows. *)
Record Table := mkTable { t_cols : list string; t_rows : list Row }.

(** ** Exceptions and the effect monad *)

Inductive Exn : Type :=
| KeyError (k : string)
| InvocationError          (* the CALL of the stored procedure raised *)
| UnboundLocalError (v : string)
| StopException            (* raised by [st.stop()] *)
| ColumnExists (c : string)
| TypeError (msg : string).

Inductive Result (A : Type) : Type :=
| Ok (a : A)
| Err (e : Exn).
Arguments Ok {A} a.
Arguments Err {A} e.

(** Joined output row: [RESPONSE] and [ROW_ID] from the result side, the
    matched source row or nulls ([None]) from the right side of the join. *)
Record OutRec := mkOut { o_id : Value; o_resp : Value; o_src : option Row }.

(** Observable events. *)
Inductive Event : Type :=
| ECall (r : Row)           (* session.sql("CALL sproc(row)") *)
| EError (msg : string)     (* st.error *)
| EWrite (msg : string)     (* st.write *)
| EDataframe                (* st.dataframe *)
| EJoin                     (* join_data issued *)
| EWarning (msg : string)   (* st.warning *)
| EQuery (sql : string)     (* session.sql(sql) *)
| EDivider                  (* st.divider *)
| ESuccess (msg : string)   (* st.success *)
| ESwitchPage (page : string) (* st.switch_page *)
| ERerun.                   (* st.rerun *)

Record World := mkWorld { tbl : list OutRec; trace : list Event }.

Definition M (A : Type) : Type := World -> Result A * World.

Definition ret {A} (a : A) : M A := fun w => (Ok a, w).
Definition bind {A B} (m : M A) (k : A -> M B) : M B :=
  fun w => match m w with
           | (Ok a, w') => k a w'
           | (Err e, w') => (Err e, w')
           end.
Definition throw {A} (e : Exn) : M A := fun w => (Err e, w).
Definition emit (ev : Event) : M unit :=
  fun w => (Ok tt, mkWorld (tbl w) (trace w ++ [ev])).

Notation "x <- c ;; k" := (bind c (fun x => k))
  (at level 61, c at next level, right associativity).
Notation "c ;;; k" := (bind c (fun _ => k))
  (at level 61, right associativity).

(** ** External collaborators of [pipeline_runner] *)

(** Modelled from the spec: [add_row_id] of [src.snowflake_utils] (not in
    the sources; spec 4.1): adds one column ROW_ID holding a unique
    identifier per row (here the row's position), keeps the rows and their
    values, and fails if the column already exists. *)
Fixpoint tag_rows (i : nat) (rs : list Row) : list Row :=
  match rs with
  | [] => []
  | r :: rs' => (r ++ [("ROW_ID", VInt (Z.of_nat i))]) :: tag_rows (S i) rs'
  end.

Definition add_row_id (t : Table) : Result Table :=
  if existsb (String.eqb "ROW_ID") (t_cols t) then Err (ColumnExists "ROW_ID")
  else Ok (mkTable (t_cols t ++ ["ROW_ID"]) (tag_rows 0 (t_rows t))).

(** Modelled from the spec: [save_eval_to_table] of [src.snowflake_utils]
    (not in the sources; docstring of [pipeline_runner] and spec 6): write
    mode is append. *)
Definition save_eval_to_table (recs : list OutRec) : M unit :=
  fun w => (Ok tt, mkWorld (tbl w ++ recs) (trace w)).

(** Snowpark's [to_pandas_batches] (client library, spec 4.2): consecutive
    batches of at most [Pos.to_nat bs] rows, in order, none empty. *)
Fixpoint chunks_aux (fuel n : nat) (l : list Row) : list (list Row) :=
  match fuel with
  | O => []
  | S f => match l with
           | [] => []
           | _ => firstn n l :: chunks_aux f n (skipn n l)
           end
  end.

Definition to_pandas_batches (bs : positive) (t : Table) : list (list Row) :=
  chunks_aux (List.length (t_rows t)) (Pos.to_nat bs) (t_rows t).

Definition lift {A} (r : Result A) : M A :=
  match r with Ok a => ret a | Err e => throw e end.

(** ** [pipeline_runner] *)

(** One element of the joblib result list:
    [{"ROW_ID": row["ROW_ID"], "RESPONSE": ...}]. *)
Record Res := mkRes { res_id : Value; res_resp : Value }.

Section Pipeline.

(** The stored procedure: [CALL sproc(row.to_dict())] returns its scalar
    ([.result()[0][0]]) or raises ([None]). *)
Variable sproc : Row -> option Value.

(** The lambda passed to [delayed]: the dict literal evaluates
    [row["ROW_ID"]] first, then issues the CALL. *)
Definition invoke (row : Row) : M Res :=
  id <- match row_get row "ROW_ID" with
        | Some v => ret v
        | None => throw (KeyError "ROW_ID")
        end ;;
  emit (ECall row) ;;;
  match sproc row with
  | Some v => ret (mkRes id v)
  | None => throw InvocationError
  end.

(** [Parallel(n_jobs=cpu_count(), backend="threading")(...)]: the results
    in input order, or the first exception raised, re-raised by joblib with
    no retry; a sequential schedule of the thread pool. *)
Fixpoint parallel (rows : list Row) : M (list Res) :=
  match rows with
  | [] => ret []
  | r :: rows' => x <- invoke r ;; xs <- parallel rows' ;; ret (x :: xs)
  end.

(** The [for pandas_df in df.to_pandas_batches()] loop: each iteration
    rebinds the local [results]; [None] is the unbound local. *)
Fixpoint batch_loop (batches : list (list Row)) (results : option (list Res))
  : M (option (list Res)) :=
  match batches with
  | [] => ret results
  | b :: bs => rs <- parallel b ;; batch_loop bs (Some rs)
  end.

(** [session.create_dataframe(results).join(df, on="ROW_ID", how="left")]:
    every result row is kept; it is paired with each row of [df] carrying its
    ROW_ID, or with nulls when there is none. *)
Definition matches (df : Table) (id : Value) : list Row :=
  filter (fun row => match row_get row "ROW_ID" with
                     | Some v => Value_eqb v id
                     | None => false
                     end) (t_rows df).

Definition left_join (rs : list Res) (df : Table) : list OutRec :=
  flat_map (fun r => match matches df (res_id r) with
                     | [] => [mkOut (res_id r) (res_resp r) None]
                     | ms => map (fun m => mkOut (res_id r) (res_resp r) (Some m)) ms
                     end) rs.

(** [pipeline_runner(session, sproc, input_tablename, output_tablename)]
    on the input table [src]; Snowpark streams batches of size [bs]. The join
    and the save follow the loop (lines 232-233). *)
Definition pipeline_runner (bs : positive) (src : Table) : M unit :=
  df <- lift (add_row_id src) ;;
  results <- batch_loop (to_pandas_batches bs df) None ;;
  match results with
  | None => throw (UnboundLocalError "results")
  | Some rs => save_eval_to_table (left_join rs df)
  end.

End Pipeline.

(** Sample data: a one-column table and a stored procedure returning the
    length of column TEXT, failing on the text "boom". *)
Definition sample (xs : list string) : Table :=
  mkTable ["TEXT"] (map (fun x => [("TEXT", VStr x)]) xs).

Definition len_sproc (r : Row) : option Value :=
  match row_get r "TEXT" with
  | Some (VStr "boom") => None
  | Some (VStr s) => Some (VInt (Z.of_nat (String.length s)))
  | _ => None
  end.

Definition w0 : World := mkWorld [] [].

(** The tagged sample table of the C1 witness (ROW_ID is the position). *)
Definition sample3_tagged : Table :=
  mkTable ["TEXT"; "ROW_ID"]
          [[("TEXT", VStr "a"); ("ROW_ID", VInt 0)];
           [("TEXT", VStr "bb"); ("ROW_ID", VInt 1)];
           [("TEXT", VStr "ccc"); ("ROW_ID", VInt 2)]].


(** ** [validate_data_inputs] and [preview_merge_data] *)

Set Warnings "-register-all".

(** A metric object of [src.metric_utils]: its name, description and the
    dict [required] of parameter name to description. *)
Record Metric := mkMetric
  { m_name : string; m_desc : string; m_required : list (string * string) }.

(** Python objects held in [st.session_state]. *)
Inductive PyVal : Type :=
| PNone
| PFrame (t : Table)
| PStr (s : string)
| PDict (d : list (string * PyVal))
| PList (l : list PyVal)
| PMetrics (ms : list Metric).

Definition is_none (v : PyVal) : bool :=
  match v with PNone => true | _ => false end.

(** [st.session_state] as an association list. It holds the keys the code
    assigns itself; the keys Streamlit registers for keyed widgets (toggles,
    text areas and inputs, multiselects, the metric selectboxes) are not in
    it, except the join-column selectbox of [data_spec], whose value is
    read back. Statements about the session state therefore speak of named
    keys the code assigns. *)
Definition SessionState := list (string * PyVal).

Fixpoint ss_lookup (ss : SessionState) (k : string) : option PyVal :=
  match ss with
  | [] => None
  | (k', v) :: ss' => if String.eqb k' k then Some v else ss_lookup ss' k
  end.

(** [st.session_state.get(k, None)] *)
Definition ss_get (ss : SessionState) (k : string) : PyVal :=
  match ss_lookup ss k with Some v => v | None => PNone end.

(** [st.session_state[k]] *)
Definition ss_index (ss : SessionState) (k : string) : M PyVal :=
  match ss_lookup ss k with Some v => ret v | None => throw (KeyError k) end.

Definition st_error (msg : string) : M unit := emit (EError msg).
Definition st_write (msg : string) : M unit := emit (EWrite msg).
Definition st_dataframe : M unit := emit EDataframe.
Definition st_stop : M unit := throw StopException.

(** [try: ... except Exception as e: ...]; streamlit's StopException is not
    an [Exception] and passes through. *)
Definition try_except {A} (m : M A) (h : Exn -> M A) : M A :=
  fun w => match m w with
           | (Err e, w') => match e with
                            | StopException => (Err e, w')
                            | _ => h e w'
                            end
           | res => res
           end.

Definition exn_str (e : Exn) : string :=
  match e with
  | KeyError k => k
  | InvocationError => "stored procedure call failed"
  | UnboundLocalError v => v
  | StopException => ""
  | ColumnExists c => c
  | TypeError msg => msg
  end.

Definition check_present (ss : SessionState) (k msg : string) : M unit :=
  if is_none (ss_get ss k) then st_error msg ;;; st_stop else ret tt.

Definition validate_data_inputs (ss : SessionState) : M unit :=
  check_present ss "inference_data" "No inference data selected." ;;;
  check_present ss "ground_data" "No ground truth data selected." ;;;
  check_present ss "inference_join_column" "No inference join column selected." ;;;
  check_present ss "ground_join_column" "No ground truth join column selected.".

Section Preview.

(** [join_data] of [src.snowflake_utils] and [DataFrame.limit]: external
    calls, each returning a value or raising. *)
Variable join_data : PyVal -> PyVal -> PyVal -> PyVal -> nat -> Result PyVal.
Variable df_limit : PyVal -> nat -> Result PyVal.

(** The try blocks of [preview_merge_data]: [Some d] when the local [data]
    was assigned, [None] when the except branch ran instead. *)
Definition preview_try (ss : SessionState) (limit : nat) : M (option PyVal) :=
  if is_none (ss_get ss "single_source_data") then
    validate_data_inputs ss ;;;
    try_except
      (iv <- ss_index ss "inference_data" ;;
       gv <- ss_index ss "ground_data" ;;
       ik <- ss_index ss "inference_join_column" ;;
       gk <- ss_index ss "ground_join_column" ;;
       emit EJoin ;;;
       d <- lift (join_data iv gv ik gk limit) ;;
       ret (Some d))
      (fun e => st_error (String.append "Error: " (exn_str e)) ;;; ret None)
  else
    try_except
      (sv <- ss_index ss "single_source_data" ;;
       d <- lift (df_limit sv limit) ;;
       ret (Some d))
      (fun e => st_error (String.append "Error: " (exn_str e)) ;;; ret None).

Definition preview_merge_data (ss : SessionState) : M unit :=
  let limit := 50 in
  data <- preview_try ss limit ;;
  match data with
  | None => throw (UnboundLocalError "data")
  | Some d =>
      if is_none d then ret tt
      else st_write "Limited to 50 rows." ;;; st_dataframe
  end.

End Preview.

(** ** The page: session state and the remaining functions of data.py *)

(** [d[k] = v] on a Python dict (and on [st.session_state]): an existing key
    keeps its position and gets the new value, a new key goes last. *)
Fixpoint dict_set {V} (d : list (string * V)) (k : string) (v : V) : list (string * V) :=
  match d with
  | [] => [(k, v)]
  | (k', v') :: d' => if String.eqb k' k then (k, v) :: d' else (k', v') :: dict_set d' k v
  end.

(** A script run of the page: the session state next to the world. *)
Record Page := mkPage { p_ss : SessionState; p_world : World }.

Definition SM (A : Type) : Type := Page -> Result A * Page.

Definition sret {A} (a : A) : SM A := fun p => (Ok a, p).
Definition sbind {A B} (m : SM A) (k : A -> SM B) : SM B :=
  fun p => match m p with
           | (Ok a, p') => k a p'
           | (Err e, p') => (Err e, p')
           end.
Definition sthrow {A} (e : Exn) : SM A := fun p => (Err e, p).

(** An effect on the world only. *)
Definition sw {A} (m : M A) : SM A :=
  fun p => let '(r, w) := m (p_world p) in (r, mkPage (p_ss p) w).

Notation "x <~ c ;; k" := (sbind c (fun x => k))
  (at level 61, c at next level, right associativity).
Notation "c ;~ k" := (sbind c (fun _ => k))
  (at level 61, right associativity).

Definition cur_ss : SM SessionState := fun p => (Ok (p_ss p), p).
Definition sget (k : string) : SM PyVal := fun p => (Ok (ss_get (p_ss p) k), p).
Definition sindex (k : string) : SM PyVal := fun p => sw (ss_index (p_ss p) k) p.
Definition sset (k : string) (v : PyVal) : SM unit :=
  fun p => (Ok tt, mkPage (dict_set (p_ss p) k v) (p_world p)).

(** [try ... except Exception as e] at page level (StopException passes). *)
Definition stry {A} (m : SM A) (h : Exn -> SM A) : SM A :=
  fun p => match m p with
           | (Err e, p') => match e with
                            | StopException => (Err e, p')
                            | _ => h e p'
                            end
           | res => res
           end.

(** What the user entered in the widgets during this run, by widget key
    (or label for the unkeyed ones): toggles, text inputs, buttons, the
    chosen option indices of a multiselect, the chosen option index of a
    selectbox ([None]: still on [index=None]). *)
Record UI := mkUI
  { ui_toggle : string -> bool;
    ui_text : string -> string;
    ui_button : string -> bool;
    ui_multi : string -> list nat;
    ui_select : string -> option nat }.

Definition pick_many {A} (opts : list A) (idx : list nat) : list A :=
  flat_map (fun i => match nth_error opts i with Some c => [c] | None => [] end) idx.

Definition pick_one {A} (opts : list A) (o : option nat) : option A :=
  match o with Some i => nth_error opts i | None => None end.

(** One row restricted to the given columns, in that order. *)
Definition project (r : Row) (cols : list string) : Row :=
  flat_map (fun c => match row_get r c with Some v => [(c, v)] | None => [] end) cols.

(** [session.table(name).select] applied to the chosen columns: the rows restricted to the chosen
    columns, in the order chosen. *)
Definition select_cols (t : Table) (cols : list string) : Table :=
  mkTable cols (map (fun r => project r cols) (t_rows t)).

Definition fqn (db sc t : string) : string :=
  String.append db (String.append "." (String.append sc (String.append "." t))).

Section Page.

Variable ui : UI.
(** The Snowflake session: [session.sql] (lazy; may raise), tables by
    fully-qualified name, [fetch_columns] and [table_data_selector] of
    [src.app_utils]. *)
Variable sql_exec : string -> Result PyVal.
Variable catalog : string -> Table.
Variable fetch_columns : string -> string -> string -> list string.
Variable table_data_selector : string -> string * string * string.
(** [DataFrame.columns], [DataFrame.queries["queries"][0]], [join_data] of
    [src.snowflake_utils] (limit [None] or a number) and [metric_runner] of
    [src.metric_utils] (its arguments: metrics, parameter assignments,
    source frame, source SQL). *)
Variable df_columns : PyVal -> Result (list string).
Variable df_query0 : PyVal -> Result string.
Variable join_data : PyVal -> PyVal -> PyVal -> PyVal -> option nat -> Result PyVal.
Variable metric_runner : PyVal -> PyVal -> PyVal -> option string -> Result PyVal.

(** [run_sql(sql)] *)
Definition run_sql (sql : string) : M PyVal :=
  if String.eqb sql "" then emit (EWarning "Please enter a SQL query.") ;;; ret PNone
  else try_except (emit (EQuery sql) ;;; lift (sql_exec sql))
                  (fun e => st_error (String.append "Error: " (exn_str e)) ;;; ret PNone).

(** [source_data_selector(name)] *)
Definition source_data_selector (name : string) : PyVal :=
  let '(db, sc, t) := table_data_selector name in
  let columns := fetch_columns db sc t in
  let selected := pick_many columns (ui_multi ui (String.append "columns_" name)) in
  match selected with
  | [] => PNone
  | _ => PFrame (select_cols (catalog (fqn db sc t)) selected)
  end.

(** [data_spec(key_name, instructions, join_key)]; of its keyed widgets only
    the join column selectbox is tracked in the session state, the others
    are not read by this file. *)
Definition data_spec (key_name instructions : string) (join_key : bool) : SM unit :=
  let data_key := String.append key_name "_data" in
  sw (st_write instructions) ;~
  (if ui_toggle ui (String.append key_name "_custom_sql") then
     let code_input := ui_text ui (String.append key_name "_code_input") in
     if String.eqb code_input "" then sret tt
     else d <~ sw (run_sql code_input) ;; sset data_key d
   else sset data_key (source_data_selector key_name)) ;~
  (if join_key then
     v <~ sindex data_key ;;
     columns <~ (if is_none v then sret [] else sw (lift (df_columns v))) ;;
     let jk := String.append key_name "_join_column" in
     sset jk (match pick_one columns (ui_select ui jk) with
              | Some c => PStr c
              | None => PNone
              end)
   else sret tt).

(** [run_eval()] *)
Definition run_eval : SM unit :=
  ps <~ sget "param_selection" ;;
  if is_none ps then sw (st_error "Please select columns for all required parameters.")
  else
    single <~ sget "single_source_data" ;;
    mrd <~ (if is_none single then
              iv <~ sindex "inference_data" ;;
              gv <~ sindex "ground_data" ;;
              ik <~ sindex "inference_join_column" ;;
              gk <~ sindex "ground_join_column" ;;
              sw (emit EJoin) ;~
              sw (lift (join_data iv gv ik gk None))
            else sindex "single_source_data") ;;
    sset "metric_result_data" mrd ;~
    m <~ sindex "metric_result_data" ;;
    q <~ sw (lift (df_query0 m)) ;;
    sset "source_sql" (PStr q) ;~
    ms <~ sindex "selected_metrics" ;;
    pa <~ sindex "param_selection" ;;
    src <~ sindex "metric_result_data" ;;
    r <~ sw (lift (metric_runner ms pa src None)) ;;
    sset "metric_result_data" r ;~
    sset "eval_funnel" (PStr "new") ;~
    sw (emit (ESwitchPage "pages/results.py")).

(** The inner loop of [configure_metrics] for one metric: a selectbox over
    [columns] per required parameter; [None] is the unbound local. *)
Fixpoint select_params (mname : string) (columns : option (list string))
         (req : list (string * string)) (acc : list (string * PyVal))
  : SM (list (string * PyVal)) :=
  match req with
  | [] => sret acc
  | (param, _) :: req' =>
      match columns with
      | None => sthrow (UnboundLocalError "columns")
      | Some cols =>
          let key := String.append mname (String.append "_" (String.append param "_selection")) in
          let v := match pick_one cols (ui_select ui key) with
                   | Some c => PStr c
                   | None => PNone
                   end in
          select_params mname columns req' (dict_set acc param v)
      end
  end.

Fixpoint select_metrics (columns : option (list string)) (ms : list Metric)
         (acc : list (string * PyVal)) : SM (list (string * PyVal)) :=
  match ms with
  | [] => sret acc
  | m :: ms' =>
      sw (emit EDivider) ;~
      sw (st_write (String.append "**" (String.append (m_name m)
                      (String.append "**: " (m_desc m))))) ;~
      mp <~ select_params (m_name m) columns (m_required m) [] ;;
      select_metrics columns ms' (dict_set acc (m_name m) (PDict mp))
  end.

(** The first part of [configure_metrics]: the columns of the (joined or
    single) source data, limited to 5 rows; [None] when the except branch
    ran and the local [columns] stayed unbound. *)
Definition pull_columns : SM (option (list string)) :=
  let limit := 5 in
  single <~ sget "single_source_data" ;;
  if is_none single then
    ss <~ cur_ss ;;
    sw (validate_data_inputs ss) ;~
    stry (iv <~ sindex "inference_data" ;;
          gv <~ sindex "ground_data" ;;
          ik <~ sindex "inference_join_column" ;;
          gk <~ sindex "ground_join_column" ;;
          sw (emit EJoin) ;~
          d <~ sw (lift (join_data iv gv ik gk (Some limit))) ;;
          cs <~ sw (lift (df_columns d)) ;;
          sret (Some cs))
         (fun e => sw (st_error (String.append "Error in pulling data: " (exn_str e))) ;~
                   sret None)
  else
    stry (v <~ sindex "single_source_data" ;;
          cs <~ sw (lift (df_columns v)) ;;
          sret (Some cs))
         (fun e => sw (st_error (String.append "Error in pulling data: " (exn_str e))) ;~
                   sret None).

(** [configure_metrics()] *)
Definition configure_metrics : SM unit :=
  sw (st_write "Select a column for each required parameter.") ;~
  columns <~ pull_columns ;;
  sel <~ sindex "selected_metrics" ;;
  match sel with
  | PMetrics ms =>
      param_selection <~ select_metrics columns ms [] ;;
      sset "param_selection" (PDict param_selection) ;~
      (if ui_button ui "Run" then run_eval else sret tt)
  | _ => sthrow (TypeError "selected_metrics")
  end.

(** [f"{x}"] for the values a selectbox of names returns. *)
Definition fstr (v : option string) : string :=
  match v with Some s => s | None => "None" end.

(** [str.split("(")[0]]: the text before the first "(". *)
Fixpoint split_paren0 (s : string) : string :=
  match s with
  | EmptyString => EmptyString
  | String c s' => if Ascii.eqb c "("%char then EmptyString else String c (split_paren0 s')
  end.

(** [pipeline_runner_dialog()]: [select_schema_context] gives [(db, sc)];
    the introductory [st.write] text is not tracked;
    the procedures listed in [runner_sprocs] are names; [procs] resolves a
    procedure name; the model's output table is the one named
    [new_tablename]. *)
Variable schema_context : string * string.
Variable procs : string -> Row -> option Value.
Variable batch_size : positive.

(** The options of the stored procedure selectbox: the names in the list. *)
Definition sproc_names (opts : PyVal) : list string :=
  match opts with
  | PList l => flat_map (fun v => match v with PStr s => [s] | _ => [] end) l
  | _ => []
  end.

Definition pipeline_runner_dialog : SM unit :=
  let name := "runner" in
  let sprocs_key := String.append name "_sprocs" in
  sw (st_write "Select the stored procedure that encapsulates your LLM pipeline.") ;~
  ss <~ cur_ss ;;
  (match ss_lookup ss sprocs_key with
   | Some _ => sret tt
   | None => sset sprocs_key (PList [])
   end) ;~
  opts <~ sindex sprocs_key ;;
  let names := sproc_names opts in
  let '(db, sc) := schema_context in
  let sproc_name := fqn db sc (fstr (pick_one names (ui_select ui "Select Stored Procedure"))) in
  let table := ui_text ui (String.append "new_table_" name) in
  let new_tablename := fqn db sc table in
  sw (emit EDivider) ;~
  sw (st_write "Select the reference data.") ;~
  let '(tdb, tsc, tname) := table_data_selector "runner_output" in
  let data_table := fqn tdb tsc tname in
  if ui_button ui "Run" then
    sw (pipeline_runner (procs (split_paren0 sproc_name)) batch_size (catalog data_table)) ;~
    sw (emit (ESuccess (String.append "Results written to "
                          (String.append new_tablename ".")))) ;~
    sw (emit ERerun)
  else sret tt.

(** The page is rendered only once a metric is selected and the funnel is
    "new" (the condition of [INSTRUCTIONS] and of [pick_data]). *)
Definition ready (ss : SessionState) : bool :=
  negb (is_none (ss_get ss "selected_metrics"))
  && match ss_get ss "eval_funnel" with PStr s => String.eqb s "new" | _ => false end.

(** [.limit(n)] of a Snowpark frame (the preview's single source). *)
Variable df_limit : PyVal -> nat -> Result PyVal.

(** [pick_data()]: the toggle and the buttons are unkeyed, so tracked by
    their labels; the dialogs run when their buttons are pressed. *)
Definition pick_data : SM unit :=
  ss <~ cur_ss ;;
  if ready ss then
    let data_toggle := ui_toggle ui "Separate Expected & Actual" in
    (if ui_button ui "Need to generate results?" then pipeline_runner_dialog else sret tt) ;~
    (if negb data_toggle
     then data_spec "single_source" "Select your evaluation dataset." false
     else data_spec "ground" "Select your expected results." true ;~
          data_spec "inference" "Select your actual results." true) ;~
    let preview_button := ui_button ui "Preview" in
    let configure_button := ui_button ui "Configure" in
    (if preview_button
     then ss' <~ cur_ss ;;
          sw (preview_merge_data (fun iv gv ik gk n => join_data iv gv ik gk (Some n)) df_limit ss')
     else sret tt) ;~
    (if configure_button then configure_metrics else sret tt)
  else sret tt.

End Page.

(** Sample inputs for the page functions: widget answers, a catalog with one
    table, frames whose columns and query can be read, a metric. *)
Definition ui_of (custom : bool) (code : string) (run : bool) : UI :=
  mkUI (fun _ => custom) (fun _ => code) (fun _ => run) (fun _ => [0]) (fun _ => Some 0).

Definition tds_ex (_ : string) : string * string * string := ("DB", "SC", "T").
Definition fetch_ex (_ _ _ : string) : list string := ["TEXT"].
Definition catalog_ex (_ : string) : Table := sample ["hi"; "there"].

Definition frame_columns (v : PyVal) : Result (list string) :=
  match v with PFrame t => Ok (t_cols t) | _ => Err (TypeError "columns") end.
Definition frame_query (v : PyVal) : Result string :=
  match v with PFrame _ => Ok "SELECT TEXT FROM DB.SC.T" | _ => Err (TypeError "queries") end.
Definition join_ex (_ _ _ _ : PyVal) (_ : option nat) : Result PyVal := Ok (PFrame (sample ["hi"])).
Definition runner_ex (_ _ d : PyVal) (_ : option string) : Result PyVal := Ok d.

Definition metric_ex : Metric := mkMetric "Exact Match" "Equality of two columns"
  [("output", "Generated answer"); ("expected", "Reference answer")].

Definition ss_ex : SessionState :=
  [("selected_metrics", PMetrics [metric_ex]); ("single_source_data", PFrame (sample ["hi"]))].

(** * Proofs *)

Lemma Value_eqb_eq (a b : Value) : Value_eqb a b = true <-> a = b.
Proof.
  destruct a, b; simpl; split; intro H; try discriminate; try reflexivity.
  - apply Z.eqb_eq in H; now subst.
  - inversion H; subst; apply Z.eqb_refl.
  - apply String.eqb_eq in H; now subst.
  - inversion H; subst; apply String.eqb_refl.
Qed.

(** ** Framing: a run only appends to the output table and the trace *)

Definition wplus (w w' : World) : World :=
  mkWorld (tbl w ++ tbl w') (trace w ++ trace w').

Definition framed {A} (m : M A) : Prop :=
  forall w, m w = (fst (m w0), wplus w (snd (m w0))).

Lemma wplus_assoc (a b c : World) : wplus (wplus a b) c = wplus a (wplus b c).
Proof. unfold wplus; simpl; now rewrite !app_assoc. Qed.

Lemma wplus_w0 (w : World) : wplus w0 w = w.
Proof. destruct w; reflexivity. Qed.

Lemma framed_ret {A} (a : A) : framed (ret a).
Proof. intro w; unfold ret, wplus; simpl; destruct w; simpl; now rewrite !app_nil_r. Qed.

Lemma framed_throw {A} (e : Exn) : framed (@throw A e).
Proof. intro w; unfold throw, wplus; simpl; destruct w; simpl; now rewrite !app_nil_r. Qed.

Lemma framed_emit (ev : Event) : framed (emit ev).
Proof. intro w; unfold emit, wplus; simpl; now rewrite app_nil_r. Qed.

Lemma framed_save (recs : list OutRec) : framed (save_eval_to_table recs).
Proof. intro w; unfold save_eval_to_table, wplus; simpl; now rewrite app_nil_r. Qed.

Lemma framed_lift {A} (r : Result A) : framed (lift r).
Proof. destruct r; [apply framed_ret | apply framed_throw]. Qed.

Lemma framed_bind {A B} (m : M A) (k : A -> M B) :
  framed m -> (forall a, framed (k a)) -> framed (bind m k).
Proof.
  intros Hm Hk w. unfold bind. rewrite (Hm w).
  destruct (m w0) as [[a|e] w1]; simpl.
  - rewrite (Hk a (wplus w w1)), (Hk a w1); simpl. now rewrite wplus_assoc.
  - reflexivity.
Qed.

Create HintDb framing.
#[local] Hint Resolve framed_ret framed_throw framed_emit framed_save framed_lift
  framed_bind : framing.

Lemma framed_invoke sproc row : framed (invoke sproc row).
Proof.
  unfold invoke. apply framed_bind.
  - destruct (row_get row "ROW_ID"); auto with framing.
  - intro id. apply framed_bind; auto with framing.
    intros _. destruct (sproc row); auto with framing.
Qed.

Lemma framed_parallel sproc rows : framed (parallel sproc rows).
Proof.
  induction rows as [|r rows IH]; simpl.
  - apply framed_ret.
  - apply framed_bind; [apply framed_invoke|].
    intro x; apply framed_bind; auto with framing.
Qed.

Lemma framed_batch_loop sproc bs acc : framed (batch_loop sproc bs acc).
Proof.
  revert acc; induction bs as [|b bs IH]; intro acc; simpl.
  - apply framed_ret.
  - apply framed_bind; [apply framed_parallel | intro; apply IH].
Qed.

Lemma framed_pipeline_runner sproc bs src : framed (pipeline_runner sproc bs src).
Proof.
  unfold pipeline_runner. apply framed_bind; [apply framed_lift|].
  intro df. apply framed_bind; [apply framed_batch_loop|].
  intros [rs|]; auto with framing.
Qed.

(** ** Batches *)

Lemma chunks_concat fuel n l :
  0 < n -> List.length l <= fuel -> List.concat (chunks_aux fuel n l) = l.
Proof.
  revert l; induction fuel as [|f IH]; intros l Hn Hl; simpl.
  - destruct l; simpl in *; [reflexivity | lia].
  - destruct l as [|x l']; [reflexivity|]; simpl.
    rewrite IH; [apply firstn_skipn | assumption |].
    rewrite length_skipn; simpl in *; destruct n; lia.
Qed.

Lemma chunks_nonempty fuel n l :
  0 < n -> forall b, In b (chunks_aux fuel n l) -> b <> [].
Proof.
  revert l; induction fuel as [|f IH]; intros l Hn b Hb; simpl in Hb.
  - contradiction.
  - destruct l as [|x l']; [contradiction|].
    destruct Hb as [<-|Hb]; [|eapply IH; eauto].
    destruct n; [lia|]; discriminate.
Qed.

Lemma chunks_not_nil fuel n l :
  0 < fuel -> l <> [] -> chunks_aux fuel n l <> [].
Proof. destruct fuel, l; simpl; congruence || lia. Qed.

Lemma to_pandas_batches_concat bs t :
  List.concat (to_pandas_batches bs t) = t_rows t.
Proof. unfold to_pandas_batches; apply chunks_concat; lia. Qed.

Lemma in_batch_in_table bs t b r :
  In b (to_pandas_batches bs t) -> In r b -> In r (t_rows t).
Proof.
  intros Hb Hr. rewrite <- to_pandas_batches_concat with (bs := bs).
  apply in_concat; eauto.
Qed.

(** ** The row tagger (spec model) *)

Lemma row_get_app r k v :
  ~ In k (map fst r) -> row_get (r ++ [(k, v)]) k = Some v.
Proof.
  induction r as [|[c x] r IH]; simpl; intro H.
  - now rewrite String.eqb_refl.
  - destruct (String.eqb_spec c k); [subst; tauto|]. apply IH; tauto.
Qed.

Lemma row_get_app_other r k k' v :
  k' <> k -> row_get (r ++ [(k, v)]) k' = row_get r k'.
Proof.
  intro Hne. induction r as [|[c x] r IH]; simpl.
  - destruct (String.eqb_spec k k'); congruence.
  - now rewrite IH.
Qed.

Lemma row_get_app_some r k v : exists v', row_get (r ++ [(k, v)]) k = Some v'.
Proof.
  induction r as [|[c x] r IH]; simpl.
  - rewrite String.eqb_refl; eauto.
  - destruct (String.eqb c k); eauto.
Qed.

Lemma tag_rows_length i rs : List.length (tag_rows i rs) = List.length rs.
Proof. revert i; induction rs; simpl; auto. Qed.

Lemma tag_rows_has_id i rs r :
  In r (tag_rows i rs) -> exists v, row_get r "ROW_ID" = Some v.
Proof.
  revert i; induction rs as [|x rs IH]; intros i H; simpl in H; [contradiction|].
  destruct H as [<-|H]; [apply row_get_app_some | eapply IH; eauto].
Qed.

Lemma add_row_id_has_id src df r :
  add_row_id src = Ok df -> In r (t_rows df) -> exists v, row_get r "ROW_ID" = Some v.
Proof.
  unfold add_row_id; destruct existsb; intro H; inversion H; subst; simpl.
  apply tag_rows_has_id.
Qed.

(** ** One batch on the thread pool *)

Section ParallelSpec.

Variable sproc : Row -> option Value.

(** [x] is the result the code builds for [row]. *)
Definition result_of (row : Row) (x : Res) : Prop :=
  row_get row "ROW_ID" = Some (res_id x) /\ sproc row = Some (res_resp x).

Lemma invoke_ok row id v w :
  row_get row "ROW_ID" = Some id -> sproc row = Some v ->
  invoke sproc row w = (Ok (mkRes id v), mkWorld (tbl w) (trace w ++ [ECall row])).
Proof. intros H1 H2. unfold invoke, bind, emit. now rewrite H1, H2. Qed.

Lemma invoke_err row id w :
  row_get row "ROW_ID" = Some id -> sproc row = None ->
  invoke sproc row w = (Err InvocationError, mkWorld (tbl w) (trace w ++ [ECall row])).
Proof. intros H1 H2. unfold invoke, bind, emit. now rewrite H1, H2. Qed.

Lemma parallel_spec rows :
  (forall r, In r rows -> row_get r "ROW_ID" <> None) ->
  forall w,
    (exists rs, parallel sproc rows w
                = (Ok rs, mkWorld (tbl w) (trace w ++ map ECall rows))
                /\ Forall2 result_of rows rs)
    \/
    (exists k, k < List.length rows
               /\ parallel sproc rows w
                  = (Err InvocationError,
                     mkWorld (tbl w) (trace w ++ map ECall (firstn (S k) rows)))
               /\ sproc (nth k rows []) = None).
Proof.
  induction rows as [|r rows IH]; intros Hid w.
  - left. exists []. split; [|constructor]. destruct w; simpl. now rewrite app_nil_r.
  - destruct (row_get r "ROW_ID") as [id|] eqn:Eid;
      [|exfalso; apply (Hid r); simpl; auto].
    cbn [parallel]. unfold bind.
    destruct (sproc r) as [v|] eqn:Ev.
    + rewrite (invoke_ok r id v w Eid Ev).
      destruct (IH (fun r' H => Hid r' (or_intror H))
                   (mkWorld (tbl w) (trace w ++ [ECall r])))
        as [[rs [E F]]|[k [Hk [E Hn]]]]; rewrite E; cbv beta iota.
      * left. exists (mkRes id v :: rs). unfold ret; simpl.
        split; [now rewrite <- app_assoc | constructor; [split; assumption | exact F]].
      * right. exists (S k). simpl.
        split; [lia|]. split; [now rewrite <- app_assoc | exact Hn].
    + rewrite (invoke_err r id w Eid Ev).
      right. exists 0. simpl. split; [lia|]. split; [reflexivity | exact Ev].
Qed.

Lemma Forall2_result_of_length rows rs :
  Forall2 result_of rows rs -> List.length rs = List.length rows.
Proof. induction 1; simpl; auto. Qed.

Lemma Forall2_result_of_ids rows rs :
  Forall2 result_of rows rs ->
  map (fun r => row_get r "ROW_ID") rows = map (fun x => Some (res_id x)) rs.
Proof. induction 1 as [|r x rows rs [H1 _] _ IH]; simpl; congruence. Qed.

Lemma Forall2_result_of_ok rows rs :
  Forall2 result_of rows rs -> forall r, In r rows -> sproc r <> None.
Proof.
  induction 1 as [|r x rows rs [_ H2] _ IH]; simpl; [tauto|].
  intros r' [<-|H]; [congruence | auto].
Qed.

(** The loop over batches with every row tagged. *)
Lemma batch_loop_spec bs acc w :
  (forall b r, In b bs -> In r b -> row_get r "ROW_ID" <> None) ->
  (exists res tr,
      batch_loop sproc bs acc w = (Ok res, mkWorld (tbl w) tr)
      /\ (bs = [] -> res = acc)
      /\ (bs <> [] -> exists rs, res = Some rs /\ Forall2 result_of (last bs []) rs)
      /\ (forall b r, In b bs -> In r b -> sproc r <> None))
  \/
  (exists w', batch_loop sproc bs acc w = (Err InvocationError, w') /\ tbl w' = tbl w
              /\ exists b r, In b bs /\ In r b /\ sproc r = None).
Proof.
  revert acc w; induction bs as [|b bs IH]; intros acc w Hid.
  - left. exists acc, (trace w). destruct w; simpl. repeat split; try congruence; intros ? ? [].
  - cbn [batch_loop]. unfold bind.
    destruct (parallel_spec b (fun r H => Hid b r (or_introl eq_refl) H) w)
      as [[rs [E F]]|[k [Hk [E Hn]]]]; rewrite E; cbv beta iota.
    + destruct (IH (Some rs) (mkWorld (tbl w) (trace w ++ map ECall b))
                   (fun b' r H1 H2 => Hid b' r (or_intror H1) H2))
        as [[res [tr [E2 [H1 [H2 H3]]]]]|[w' [E2 [Ht [b' [r [Hb [Hr Hs]]]]]]]].
      * left. exists res, tr. rewrite E2. split; [reflexivity|]. split; [discriminate|].
        split.
        -- intros _. destruct bs as [|b2 bs].
           ++ exists rs. split; [apply H1; reflexivity | exact F].
           ++ apply H2; discriminate.
        -- intros b' r [<-|Hb] Hr; [exact (Forall2_result_of_ok b rs F r Hr) | eauto].
      * right. exists w'. rewrite E2. split; [reflexivity|]. split; [exact Ht|].
        exists b', r. simpl; auto.
    + right. eexists. split; [reflexivity|]. split; [reflexivity|].
      exists b, (nth k b []). split; [simpl; auto|]. split; [apply nth_In; exact Hk | exact Hn].
Qed.

End ParallelSpec.

(** ** Auxiliary facts *)

Lemma last_in {A} (l : list A) (d : A) : l <> [] -> In (last l d) l.
Proof.
  induction l as [|x l IH]; intro H; [congruence|].
  destruct l as [|y l]; simpl; [auto|]. right; apply IH; discriminate.
Qed.

Lemma result_of_det sproc rows rs rs' :
  Forall2 (result_of sproc) rows rs -> Forall2 (result_of sproc) rows rs' -> rs = rs'.
Proof.
  intro H; revert rs'; induction H as [|r x rows rs [H1 H2] _ IH]; intros rs' H'.
  - now inversion H'.
  - inversion H' as [|? x' ? rs2 [H1' H2'] F']; subst.
    f_equal; [|now apply IH].
    destruct x, x'; simpl in *; congruence.
Qed.

Lemma left_join_length_ge rs df : List.length rs <= List.length (left_join rs df).
Proof.
  induction rs as [|x rs IH]; simpl; [lia|].
  rewrite length_app. destruct (matches df (res_id x)); simpl; [|rewrite length_map]; lia.
Qed.

Lemma batch_rows_have_id src df bs :
  add_row_id src = Ok df ->
  forall b r, In b (to_pandas_batches bs df) -> In r b -> row_get r "ROW_ID" <> None.
Proof.
  intros Hadd b r Hb Hr. destruct (add_row_id_has_id src df r Hadd) as [v Hv];
    [eapply in_batch_in_table; eauto | congruence].
Qed.

Lemma pipeline_success sproc bs src df w :
  add_row_id src = Ok df ->
  t_rows df <> [] ->
  (forall r, In r (t_rows df) -> sproc r <> None) ->
  exists rs tr,
    pipeline_runner sproc bs src w = (Ok tt, mkWorld (tbl w ++ left_join rs df) tr)
    /\ Forall2 (result_of sproc) (last (to_pandas_batches bs df) []) rs.
Proof.
  intros Hadd Hne Hok. unfold pipeline_runner, bind. rewrite Hadd. cbn [lift].
  unfold ret at 1.
  destruct (batch_loop_spec sproc (to_pandas_batches bs df) None w)
    as [[res [tr [E [_ [H2 _]]]]]|[w' [_ [_ [b [r [Hb [Hr Hs]]]]]]]];
    [exact (batch_rows_have_id src df bs Hadd)| |].
  - rewrite E. destruct H2 as [rs [-> F]].
    + unfold to_pandas_batches. apply chunks_not_nil; [|exact Hne].
      destruct (t_rows df); simpl; [congruence | lia].
    + exists rs, tr. split; [reflexivity | exact F].
  - exfalso. apply (Hok r); [eapply in_batch_in_table; eauto | exact Hs].
Qed.

(** * Claims about [pipeline_runner] *)

(** C1: the join and the save follow the batch loop and [results] is rebound
    on every iteration, so for a non-empty input whose invocations all
    succeed the rows appended to the output table are exactly the left join
    of the LAST batch's invocation results with the tagged table. *)
Theorem pipeline_runner_joins_last_batch_only sproc bs src df w :
  add_row_id src = Ok df ->
  t_rows df <> [] ->
  (forall r, In r (t_rows df) -> sproc r <> None) ->
  exists rs tr,
    pipeline_runner sproc bs src w = (Ok tt, mkWorld (tbl w ++ left_join rs df) tr)
    /\ Forall2 (result_of sproc) (last (to_pandas_batches bs df) []) rs.
Proof. apply pipeline_success. Qed.

Lemma pipeline_runner_joins_last_batch_only_witness :
  add_row_id (sample ["a"; "bb"; "ccc"]) =
    Ok (mkTable ["TEXT"; "ROW_ID"]
                [[("TEXT", VStr "a"); ("ROW_ID", VInt 0)];
                 [("TEXT", VStr "bb"); ("ROW_ID", VInt 1)];
                 [("TEXT", VStr "ccc"); ("ROW_ID", VInt 2)]])
  /\ exists rs tr,
    pipeline_runner len_sproc 2 (sample ["a"; "bb"; "ccc"]) w0
      = (Ok tt, mkWorld (tbl w0 ++ left_join rs
               (mkTable ["TEXT"; "ROW_ID"]
                [[("TEXT", VStr "a"); ("ROW_ID", VInt 0)];
                 [("TEXT", VStr "bb"); ("ROW_ID", VInt 1)];
                 [("TEXT", VStr "ccc"); ("ROW_ID", VInt 2)]])) tr)
    /\ Forall2 (result_of len_sproc)
         (last (to_pandas_batches 2
               (mkTable ["TEXT"; "ROW_ID"]
                [[("TEXT", VStr "a"); ("ROW_ID", VInt 0)];
                 [("TEXT", VStr "bb"); ("ROW_ID", VInt 1)];
                 [("TEXT", VStr "ccc"); ("ROW_ID", VInt 2)]])) []) rs.
Proof.
  split; [reflexivity|].
  apply pipeline_runner_joins_last_batch_only.
  - reflexivity.
  - discriminate.
  - intros r Hr; simpl in Hr.
    repeat (destruct Hr as [<-|Hr]; [vm_compute; discriminate|]); contradiction.
Defined.

(** C2 (the code raises instead): on an empty source table the batch loop
    runs zero times, [results] is never bound and line 232 raises
    UnboundLocalError; nothing is appended. *)
Theorem pipeline_runner_empty_table_unbound sproc bs cols w :
  existsb (String.eqb "ROW_ID") cols = false ->
  pipeline_runner sproc bs (mkTable cols []) w
    = (Err (UnboundLocalError "results"), w).
Proof.
  intro H. unfold pipeline_runner, add_row_id, bind. cbn [t_cols t_rows]. rewrite H. reflexivity.
Qed.

Lemma pipeline_runner_empty_table_unbound_witness :
  existsb (String.eqb "ROW_ID") ["TEXT"] = false
  /\ pipeline_runner len_sproc 1 (mkTable ["TEXT"] []) w0
     = (Err (UnboundLocalError "results"), w0).
Proof.
  split; [reflexivity|]. apply pipeline_runner_empty_table_unbound. reflexivity.
Defined.

(** C5: when some invocation raises, the batch containing it yields no
    results: the exception is re-raised with each row of the batch called at
    most once (the calls issued are a prefix of the batch, no retry), and the
    whole run ends in that exception with nothing appended. *)
Theorem pipeline_runner_invocation_failure_aborts sproc bs src df w :
  add_row_id src = Ok df ->
  (exists r, In r (t_rows df) /\ sproc r = None) ->
  (forall b, In b (to_pandas_batches bs df) ->
     (exists r, In r b /\ sproc r = None) ->
     forall w', exists k, k < List.length b
       /\ parallel sproc b w'
          = (Err InvocationError, mkWorld (tbl w') (trace w' ++ map ECall (firstn (S k) b))))
  /\ exists w', pipeline_runner sproc bs src w = (Err InvocationError, w') /\ tbl w' = tbl w.
Proof.
  intros Hadd [r0 [Hr0 Hs0]]. split.
  - intros b Hb [r [Hr Hs]] w'.
    destruct (parallel_spec sproc b (fun r H => batch_rows_have_id src df bs Hadd b r Hb H) w')
      as [[rs [_ F]]|[k [Hk [E _]]]].
    + exfalso. exact (Forall2_result_of_ok sproc b rs F r Hr Hs).
    + eauto.
  - unfold pipeline_runner, bind. rewrite Hadd. cbn [lift]. unfold ret at 1.
    destruct (batch_loop_spec sproc (to_pandas_batches bs df) None w)
      as [[res [tr [E [_ [_ Hall]]]]]|[w' [E [Ht _]]]];
      [exact (batch_rows_have_id src df bs Hadd)| |].
    + exfalso. rewrite <- (to_pandas_batches_concat bs df) in Hr0.
      apply in_concat in Hr0 as [b [Hb Hr]].
      exact (Hall b r0 Hb Hr Hs0).
    + rewrite E. eauto.
Qed.

Lemma pipeline_runner_invocation_failure_aborts_witness :
  add_row_id (sample ["a"; "boom"]) =
    Ok (mkTable ["TEXT"; "ROW_ID"]
                [[("TEXT", VStr "a"); ("ROW_ID", VInt 0)];
                 [("TEXT", VStr "boom"); ("ROW_ID", VInt 1)]])
  /\ exists w', pipeline_runner len_sproc 1 (sample ["a"; "boom"]) w0
                = (Err InvocationError, w') /\ tbl w' = tbl w0.
Proof.
  split; [reflexivity|].
  refine (proj2 (pipeline_runner_invocation_failure_aborts len_sproc 1
                   (sample ["a"; "boom"]) _ w0 eq_refl _)).
  exists [("TEXT", VStr "boom"); ("ROW_ID", VInt 1)].
  split; [simpl; auto | reflexivity].
Defined.

(** C6 (the code appends nothing): with two batches where the second one's
    invocation fails, the first batch was never joined nor saved, since the
    save follows the loop; the output table is left as it was. *)
Theorem pipeline_runner_later_failure_appends_nothing :
  to_pandas_batches 1 (mkTable ["TEXT"; "ROW_ID"]
      [[("TEXT", VStr "a"); ("ROW_ID", VInt 0)];
       [("TEXT", VStr "boom"); ("ROW_ID", VInt 1)]])
    = [[[("TEXT", VStr "a"); ("ROW_ID", VInt 0)]];
       [[("TEXT", VStr "boom"); ("ROW_ID", VInt 1)]]]
  /\ len_sproc [("TEXT", VStr "a"); ("ROW_ID", VInt 0)] = Some (VInt 1)
  /\ pipeline_runner len_sproc 1 (sample ["a"; "boom"]) w0
     = (Err InvocationError,
        mkWorld [] [ECall [("TEXT", VStr "a"); ("ROW_ID", VInt 0)];
                    ECall [("TEXT", VStr "boom"); ("ROW_ID", VInt 1)]]).
Proof. vm_compute. repeat split. Qed.

(** C7: a run only ever appends to the output table (whatever its outcome),
    and two successful runs on the same non-empty source append the same
    non-empty block of output records twice. *)
Theorem pipeline_runner_append_only_twice sproc bs src df w :
  add_row_id src = Ok df ->
  t_rows df <> [] ->
  (forall r, In r (t_rows df) -> sproc r <> None) ->
  (forall w', exists out, tbl (snd (pipeline_runner sproc bs src w')) = tbl w' ++ out)
  /\ exists out, out <> []
     /\ tbl (snd (pipeline_runner sproc bs src w)) = tbl w ++ out
     /\ tbl (snd (pipeline_runner sproc bs src (snd (pipeline_runner sproc bs src w))))
        = tbl w ++ out ++ out.
Proof.
  intros Hadd Hne Hok. split.
  - intro w'. rewrite (framed_pipeline_runner sproc bs src w'). simpl. eauto.
  - destruct (pipeline_success sproc bs src df w Hadd Hne Hok) as [rs [tr [E1 F1]]].
    rewrite E1. simpl.
    destruct (pipeline_success sproc bs src df (mkWorld (tbl w ++ left_join rs df) tr)
                Hadd Hne Hok) as [rs' [tr' [E2 F2]]].
    rewrite E2. simpl.
    rewrite <- (result_of_det sproc _ rs rs' F1 F2).
    exists (left_join rs df). split; [|split; [reflexivity | symmetry; apply app_assoc]].
    assert (Hb : to_pandas_batches bs df <> []).
    { unfold to_pandas_batches. apply chunks_not_nil; [|exact Hne].
      destruct (t_rows df); simpl; [congruence | lia]. }
    assert (Hl : last (to_pandas_batches bs df) [] <> []).
    { apply (chunks_nonempty (List.length (t_rows df)) (Pos.to_nat bs) (t_rows df)); [lia|].
      apply last_in, Hb. }
    intro Hnil. pose proof (left_join_length_ge rs df) as Hge.
    rewrite Hnil, (Forall2_result_of_length sproc _ _ F1) in Hge.
    destruct (last (to_pandas_batches bs df) []); [congruence | simpl in Hge; lia].
Qed.

Lemma pipeline_runner_append_only_twice_witness :
  add_row_id (sample ["a"]) =
    Ok (mkTable ["TEXT"; "ROW_ID"] [[("TEXT", VStr "a"); ("ROW_ID", VInt 0)]])
  /\ exists out, out <> []
     /\ tbl (snd (pipeline_runner len_sproc 1 (sample ["a"]) w0)) = tbl w0 ++ out
     /\ tbl (snd (pipeline_runner len_sproc 1 (sample ["a"])
                   (snd (pipeline_runner len_sproc 1 (sample ["a"]) w0))))
        = tbl w0 ++ out ++ out.
Proof.
  split; [reflexivity|].
  refine (proj2 (pipeline_runner_append_only_twice len_sproc 1 (sample ["a"]) _ w0
                   eq_refl _ _)).
  - discriminate.
  - intros r [<-|[]]. vm_compute. discriminate.
Defined.

(** ** Well-formed tables and tagged identifiers *)

(** Every row of a table has exactly the table's columns, in order. *)
Definition wf_table (t : Table) : Prop :=
  forall r, In r (t_rows t) -> map fst r = t_cols t.

Lemma tag_rows_ids cols i rs :
  (forall r, In r rs -> map fst r = cols) -> ~ In "ROW_ID" cols ->
  map (fun r => row_get r "ROW_ID") (tag_rows i rs)
  = map (fun j => Some (VInt (Z.of_nat j))) (seq i (List.length rs)).
Proof.
  intros Hwf Hn. revert i; induction rs as [|r rs IH]; intro i; simpl; [reflexivity|].
  rewrite row_get_app by (rewrite (Hwf r (or_introl eq_refl)); exact Hn).
  f_equal. apply IH. intros r' H; apply Hwf; simpl; auto.
Qed.

Lemma NoDup_tag_ids n i :
  NoDup (map (fun j => Some (VInt (Z.of_nat j))) (seq i n)).
Proof.
  revert i; induction n as [|n IH]; intro i; simpl; constructor; [|apply IH].
  intro H. apply in_map_iff in H as [j [Hj Hin]]. apply in_seq in Hin.
  inversion Hj. lia.
Qed.

Lemma existsb_rowid_false cols :
  ~ In "ROW_ID" cols -> existsb (String.eqb "ROW_ID") cols = false.
Proof.
  intro H. apply Bool.not_true_iff_false. intro E.
  apply existsb_exists in E as [c [Hc Ec]]. apply String.eqb_eq in Ec. subst; auto.
Qed.

Lemma add_row_id_ok t :
  ~ In "ROW_ID" (t_cols t) ->
  add_row_id t = Ok (mkTable (t_cols t ++ ["ROW_ID"]) (tag_rows 0 (t_rows t))).
Proof. intro H. unfold add_row_id. now rewrite existsb_rowid_false. Qed.

Lemma add_row_id_inv t df :
  add_row_id t = Ok df ->
  ~ In "ROW_ID" (t_cols t) /\ df = mkTable (t_cols t ++ ["ROW_ID"]) (tag_rows 0 (t_rows t)).
Proof.
  unfold add_row_id. destruct (existsb (String.eqb "ROW_ID") (t_cols t)) eqn:E;
    intro H; inversion H; subst. split; [|reflexivity].
  intro Hin. rewrite <- Bool.not_true_iff_false in E. apply E.
  apply existsb_exists. exists "ROW_ID"; split; [exact Hin | apply String.eqb_refl].
Qed.

Lemma tag_rows_wf cols i rs :
  (forall r, In r rs -> map fst r = cols) ->
  forall r, In r (tag_rows i rs) -> map fst r = cols ++ ["ROW_ID"].
Proof.
  revert i; induction rs as [|x rs IH]; intros i Hwf r Hr; simpl in Hr; [contradiction|].
  destruct Hr as [<-|Hr].
  - rewrite map_app, (Hwf x (or_introl eq_refl)). reflexivity.
  - eapply IH; eauto. intros r' H; apply Hwf; simpl; auto.
Qed.

Lemma tag_rows_keep i rs :
  Forall2 (fun r r' => forall k, k <> "ROW_ID" -> row_get r' k = row_get r k)
          rs (tag_rows i rs).
Proof.
  revert i; induction rs as [|r rs IH]; intro i; simpl; constructor; [|apply IH].
  intros k Hk. apply row_get_app_other. congruence.
Qed.

(** Row identifiers are distinct inside every batch of a tagged table. *)
Lemma batch_ids_NoDup src df bs b :
  wf_table src -> add_row_id src = Ok df -> In b (to_pandas_batches bs df) ->
  NoDup (map (fun r => row_get r "ROW_ID") b).
Proof.
  intros Hwf Hadd Hb. apply add_row_id_inv in Hadd as [Hn ->].
  pose proof (tag_rows_ids _ 0 _ Hwf Hn) as Hids.
  assert (Hnd : NoDup (map (fun r => row_get r "ROW_ID") (tag_rows 0 (t_rows src))))
    by (rewrite Hids; apply NoDup_tag_ids).
  pose proof (to_pandas_batches_concat bs
                (mkTable (t_cols src ++ ["ROW_ID"]) (tag_rows 0 (t_rows src)))) as Ec.
  simpl in Ec. rewrite <- Ec in Hnd.
  apply in_split in Hb as [l1 [l2 E]]. rewrite E, concat_app in Hnd. simpl in Hnd.
  rewrite !map_app in Hnd.
  apply NoDup_app_remove_l in Hnd. apply NoDup_app_remove_r in Hnd. exact Hnd.
Qed.

Lemma sample_wf xs : wf_table (sample xs).
Proof.
  intros r Hr. unfold sample in Hr; simpl in Hr.
  apply in_map_iff in Hr as [x [<- _]]. reflexivity.
Qed.

(** C4: for every batch of the tagged table whose invocations all succeed,
    the thread pool returns one result per input record, the i-th result
    carrying the ROW_ID of the i-th record, and the results' identifiers are
    pairwise distinct: a bijection between results and records. *)
Theorem parallel_batch_bijection sproc bs src df b w :
  wf_table src ->
  add_row_id src = Ok df ->
  In b (to_pandas_batches bs df) ->
  (forall r, In r b -> sproc r <> None) ->
  exists rs,
    parallel sproc b w = (Ok rs, mkWorld (tbl w) (trace w ++ map ECall b))
    /\ List.length rs = List.length b
    /\ Forall2 (fun r x => row_get r "ROW_ID" = Some (res_id x)) b rs
    /\ NoDup (map res_id rs).
Proof.
  intros Hwf Hadd Hb Hok.
  destruct (parallel_spec sproc b (fun r H => batch_rows_have_id src df bs Hadd b r Hb H) w)
    as [[rs [E F]]|[k [Hk [_ Hn]]]].
  - exists rs. split; [exact E|]. split; [exact (Forall2_result_of_length sproc b rs F)|].
    split.
    + eapply Forall2_impl; [|exact F]. intros r x [H _]; exact H.
    + apply (NoDup_map_inv Some).
      rewrite map_map, <- (Forall2_result_of_ids sproc b rs F).
      exact (batch_ids_NoDup src df bs b Hwf Hadd Hb).
  - exfalso. exact (Hok _ (nth_In b [] Hk) Hn).
Qed.

Lemma parallel_batch_bijection_witness :
  wf_table (sample ["a"; "bb"; "ccc"])
  /\ In [[("TEXT", VStr "a"); ("ROW_ID", VInt 0)]; [("TEXT", VStr "bb"); ("ROW_ID", VInt 1)]]
        (to_pandas_batches 2 (mkTable ["TEXT"; "ROW_ID"]
                [[("TEXT", VStr "a"); ("ROW_ID", VInt 0)];
                 [("TEXT", VStr "bb"); ("ROW_ID", VInt 1)];
                 [("TEXT", VStr "ccc"); ("ROW_ID", VInt 2)]]))
  /\ exists rs,
    parallel len_sproc [[("TEXT", VStr "a"); ("ROW_ID", VInt 0)];
                        [("TEXT", VStr "bb"); ("ROW_ID", VInt 1)]] w0
      = (Ok rs, mkWorld (tbl w0) (trace w0 ++ map ECall
                   [[("TEXT", VStr "a"); ("ROW_ID", VInt 0)];
                    [("TEXT", VStr "bb"); ("ROW_ID", VInt 1)]]))
    /\ List.length rs = 2
    /\ Forall2 (fun r x => row_get r "ROW_ID" = Some (res_id x))
         [[("TEXT", VStr "a"); ("ROW_ID", VInt 0)]; [("TEXT", VStr "bb"); ("ROW_ID", VInt 1)]] rs
    /\ NoDup (map res_id rs).
Proof.
  split; [apply sample_wf|]. split; [simpl; auto|].
  apply (parallel_batch_bijection len_sproc 2 (sample ["a"; "bb"; "ccc"]) (mkTable ["TEXT"; "ROW_ID"]
                [[("TEXT", VStr "a"); ("ROW_ID", VInt 0)];
                 [("TEXT", VStr "bb"); ("ROW_ID", VInt 1)];
                 [("TEXT", VStr "ccc"); ("ROW_ID", VInt 2)]])).
  - apply sample_wf.
  - reflexivity.
  - simpl; auto.
  - intros r Hr; simpl in Hr.
    repeat (destruct Hr as [<-|Hr]; [vm_compute; discriminate|]); contradiction.
Defined.

(** C8 (a table that already has ROW_ID is refused): the row tagger raises
    instead of returning a table. *)
Lemma add_row_id_existing_column_fails :
  ~ exists t', add_row_id (mkTable ["ROW_ID"] [[("ROW_ID", VInt 7)]]) = Ok t'.
Proof. intros [t' H]. discriminate H. Qed.

Lemma add_row_id_existing t :
  In "ROW_ID" (t_cols t) -> add_row_id t = Err (ColumnExists "ROW_ID").
Proof.
  intro H. unfold add_row_id.
  replace (existsb (String.eqb "ROW_ID") (t_cols t)) with true; [reflexivity|].
  symmetry. apply existsb_exists. exists "ROW_ID". split; [exact H | apply String.eqb_refl].
Qed.

(** C8 (amended): a table that already has a ROW_ID column makes the tagger
    fail with the column-exists error; on a well-formed table without one it
    returns the same number of rows, one extra column ROW_ID whose values are
    present and pairwise distinct, and every other column's values
    unchanged. *)
Theorem add_row_id_tags t :
  (In "ROW_ID" (t_cols t) -> add_row_id t = Err (ColumnExists "ROW_ID"))
  /\ (wf_table t -> ~ In "ROW_ID" (t_cols t) ->
      exists t', add_row_id t = Ok t'
        /\ List.length (t_rows t') = List.length (t_rows t)
        /\ t_cols t' = t_cols t ++ ["ROW_ID"]
        /\ wf_table t'
        /\ (forall r, In r (t_rows t') -> row_get r "ROW_ID" <> None)
        /\ NoDup (map (fun r => row_get r "ROW_ID") (t_rows t'))
        /\ Forall2 (fun r r' => forall k, k <> "ROW_ID" -> row_get r' k = row_get r k)
                   (t_rows t) (t_rows t')).
Proof.
  split; [apply add_row_id_existing|].
  intros Hwf Hn. eexists. split; [exact (add_row_id_ok t Hn)|]. simpl.
  split; [apply tag_rows_length|]. split; [reflexivity|]. split.
  { intros r Hr. exact (tag_rows_wf _ 0 _ Hwf r Hr). }
  split.
  { intros r Hr. destruct (tag_rows_has_id 0 (t_rows t) r Hr) as [v Hv]; congruence. }
  split; [|apply tag_rows_keep].
  rewrite (tag_rows_ids _ 0 _ Hwf Hn). apply NoDup_tag_ids.
Qed.

Lemma add_row_id_tags_witness :
  add_row_id (mkTable ["ROW_ID"] [[("ROW_ID", VInt 7)]]) = Err (ColumnExists "ROW_ID")
  /\ wf_table (sample ["a"; "a"])
  /\ exists t', add_row_id (sample ["a"; "a"]) = Ok t'
    /\ List.length (t_rows t') = 2
    /\ t_cols t' = ["TEXT"; "ROW_ID"]
    /\ wf_table t'
    /\ (forall r, In r (t_rows t') -> row_get r "ROW_ID" <> None)
    /\ NoDup (map (fun r => row_get r "ROW_ID") (t_rows t'))
    /\ Forall2 (fun r r' => forall k, k <> "ROW_ID" -> row_get r' k = row_get r k)
               (t_rows (sample ["a"; "a"])) (t_rows t').
Proof.
  split; [apply (proj1 (add_row_id_tags (mkTable ["ROW_ID"] [[("ROW_ID", VInt 7)]])));
          simpl; auto|].
  split; [apply sample_wf|].
  apply (proj2 (add_row_id_tags (sample ["a"; "a"]))).
  - apply sample_wf.
  - simpl. intros [H|[]]. discriminate H.
Defined.

(** ** The result joiner *)

Lemma matches_spec df id m :
  In m (matches df id) <-> In m (t_rows df) /\ row_get m "ROW_ID" = Some id.
Proof.
  unfold matches. rewrite filter_In.
  destruct (row_get m "ROW_ID") as [v|]; [|split; intros [_ H]; discriminate].
  rewrite Value_eqb_eq. split; intros [H1 H2]; split; congruence.
Qed.

Lemma left_join_cons x rs df :
  left_join (x :: rs) df
  = match matches df (res_id x) with
    | [] => [mkOut (res_id x) (res_resp x) None]
    | ms => map (fun m => mkOut (res_id x) (res_resp x) (Some m)) ms
    end ++ left_join rs df.
Proof. reflexivity. Qed.


Lemma left_join_mem rs df o :
  In o (left_join rs df) ->
  exists x, In x rs /\ o_id o = res_id x /\ o_resp o = res_resp x
    /\ ((matches df (res_id x) = [] /\ o_src o = None)
        \/ exists m, o_src o = Some m /\ In m (t_rows df)
                     /\ row_get m "ROW_ID" = Some (res_id x)).
Proof.
  intro Ho. unfold left_join in Ho. apply in_flat_map in Ho as [x [Hx Ho]].
  exists x. split; [exact Hx|].
  destruct (matches df (res_id x)) as [|m ms] eqn:Em.
  - destruct Ho as [<-|[]]. cbn. split; [reflexivity|]. split; [reflexivity|].
    left; split; reflexivity.
  - apply in_map_iff in Ho as [m' [<- Hm']]. cbn. split; [reflexivity|].
    split; [reflexivity|]. right. exists m'. split; [reflexivity|].
    apply matches_spec. rewrite Em. exact Hm'.
Qed.

Lemma left_join_one_match rs df :
  (forall x, In x rs -> List.length (matches df (res_id x)) = 1) ->
  List.length (left_join rs df) = List.length rs
  /\ Forall2 (fun x o => o_id o = res_id x /\ o_resp o = res_resp x
               /\ exists m, o_src o = Some m /\ In m (t_rows df)
                            /\ row_get m "ROW_ID" = Some (res_id x))
             rs (left_join rs df).
Proof.
  induction rs as [|x rs IH]; intro H1; [split; [reflexivity | constructor]|].
  destruct IH as [IHl IHf]; [intros y Hy; apply H1; simpl; auto|].
  pose proof (H1 x (or_introl eq_refl)) as Hx.
  destruct (matches df (res_id x)) as [|m [|m' ms]] eqn:Em; try discriminate.
  rewrite left_join_cons, Em. cbn [map app List.length].
  split; [lia|]. constructor; [|exact IHf]. cbn [o_id o_resp o_src].
  split; [reflexivity|]. split; [reflexivity|].
  exists m. split; [reflexivity|]. apply matches_spec. rewrite Em. simpl; auto.
Qed.

Lemma left_join_length rs df :
  List.length (left_join rs df)
  = list_sum (map (fun x => Nat.max 1 (List.length (matches df (res_id x)))) rs).
Proof.
  induction rs as [|x rs IH]; [reflexivity|].
  rewrite left_join_cons, length_app, IH. cbn [map list_sum].
  destruct (matches df (res_id x)) as [|m ms].
  - reflexivity.
  - cbn [List.length list_sum]. rewrite length_map. reflexivity.
Qed.

Lemma left_join_in_match rs df x m :
  In x rs -> In m (t_rows df) -> row_get m "ROW_ID" = Some (res_id x) ->
  In (mkOut (res_id x) (res_resp x) (Some m)) (left_join rs df).
Proof.
  intros Hx Hm Hid. unfold left_join. apply in_flat_map. exists x. split; [exact Hx|].
  assert (Hin : In m (matches df (res_id x))) by (apply matches_spec; auto).
  destruct (matches df (res_id x)) as [|m0 ms]; [destruct Hin|].
  apply in_map_iff. exists m. split; [reflexivity | exact Hin].
Qed.



(** * Claims about the data-selection dialog *)

Lemma bind_err {A B} (m : M A) (k : A -> M B) w e w' :
  m w = (Err e, w') -> bind m k w = (Err e, w').
Proof. intro H. unfold bind. now rewrite H. Qed.

Lemma bind_ok {A B} (m : M A) (k : A -> M B) w a w' :
  m w = (Ok a, w') -> bind m k w = k a w'.
Proof. intro H. unfold bind. now rewrite H. Qed.

Lemma ss_index_get ss k w :
  is_none (ss_get ss k) = false -> ss_index ss k w = (Ok (ss_get ss k), w).
Proof.
  unfold ss_index, ss_get. destruct (ss_lookup ss k); simpl; [reflexivity | discriminate].
Qed.

Lemma ss_lookup_get ss k :
  is_none (ss_get ss k) = false -> ss_lookup ss k = Some (ss_get ss k).
Proof. unfold ss_get. destruct (ss_lookup ss k); simpl; [reflexivity | discriminate]. Qed.

Definition validation_messages : list string :=
  ["No inference data selected."; "No ground truth data selected.";
   "No inference join column selected."; "No ground truth join column selected."].

Lemma validate_stop ss w :
  (exists k, In k ["inference_data"; "ground_data"; "inference_join_column";
                   "ground_join_column"] /\ is_none (ss_get ss k) = true) ->
  exists msg, In msg validation_messages
    /\ validate_data_inputs ss w
       = (Err StopException, mkWorld (tbl w) (trace w ++ [EError msg])).
Proof.
  intros [k [Hk Hn]].
  unfold validate_data_inputs, check_present, bind, st_error, st_stop, emit, throw, ret.
  destruct (is_none (ss_get ss "inference_data")) eqn:E1;
    [eexists; split; cycle 1; [reflexivity | simpl; auto]|].
  destruct (is_none (ss_get ss "ground_data")) eqn:E2;
    [eexists; split; cycle 1; [reflexivity | simpl; auto]|].
  destruct (is_none (ss_get ss "inference_join_column")) eqn:E3;
    [eexists; split; cycle 1; [reflexivity | simpl; auto]|].
  destruct (is_none (ss_get ss "ground_join_column")) eqn:E4;
    [eexists; split; cycle 1; [reflexivity | simpl; auto 6]|].
  exfalso. simpl in Hk. repeat (destruct Hk as [<-|Hk]; [congruence|]). exact Hk.
Qed.

Lemma validate_pass ss w :
  is_none (ss_get ss "inference_data") = false ->
  is_none (ss_get ss "ground_data") = false ->
  is_none (ss_get ss "inference_join_column") = false ->
  is_none (ss_get ss "ground_join_column") = false ->
  validate_data_inputs ss w = (Ok tt, w).
Proof.
  intros E1 E2 E3 E4. unfold validate_data_inputs, check_present, bind, ret.
  now rewrite E1, E2, E3, E4.
Qed.

(** C9: if inference data, ground-truth data, the inference join column or
    the ground-truth join column is missing (or None) in the session state,
    [validate_data_inputs] shows the corresponding [st.error] message and
    stops the script with [st.stop()]; in the preview dialog with two
    sources this happens before [join_data] is reached and nothing else is
    shown. *)
Theorem validate_data_inputs_stops_on_missing ss w :
  (exists k, In k ["inference_data"; "ground_data"; "inference_join_column";
                   "ground_join_column"] /\ is_none (ss_get ss k) = true) ->
  exists msg, In msg validation_messages
    /\ validate_data_inputs ss w
       = (Err StopException, mkWorld (tbl w) (trace w ++ [EError msg]))
    /\ (is_none (ss_get ss "single_source_data") = true ->
        forall join_data df_limit,
          preview_merge_data join_data df_limit ss w
          = (Err StopException, mkWorld (tbl w) (trace w ++ [EError msg]))).
Proof.
  intro H. destruct (validate_stop ss w H) as [msg [Hm E]].
  exists msg. split; [exact Hm|]. split; [exact E|].
  intros Hs jd dl. unfold preview_merge_data. apply bind_err.
  unfold preview_try. rewrite Hs. apply bind_err. exact E.
Qed.

Lemma validate_data_inputs_stops_on_missing_witness :
  exists msg, In msg validation_messages
    /\ validate_data_inputs [("inference_data", PStr "t")] w0
       = (Err StopException, mkWorld (tbl w0) (trace w0 ++ [EError msg]))
    /\ (is_none (ss_get [("inference_data", PStr "t")] "single_source_data") = true ->
        forall join_data df_limit,
          preview_merge_data join_data df_limit [("inference_data", PStr "t")] w0
          = (Err StopException, mkWorld (tbl w0) (trace w0 ++ [EError msg]))).
Proof.
  apply validate_data_inputs_stops_on_missing.
  exists "ground_data". split; [simpl; auto | reflexivity].
Defined.

(** C10: when [join_data] (two sources) or [.limit] (single source) raises,
    the except branch shows the error but the local [data] stays unbound, so
    [if data is not None] raises UnboundLocalError (a NameError) instead of
    returning. *)
Theorem preview_merge_data_unbound_data join_data df_limit ss e w :
  e <> StopException ->
  ((is_none (ss_get ss "single_source_data") = true
    /\ is_none (ss_get ss "inference_data") = false
    /\ is_none (ss_get ss "ground_data") = false
    /\ is_none (ss_get ss "inference_join_column") = false
    /\ is_none (ss_get ss "ground_join_column") = false
    /\ join_data (ss_get ss "inference_data") (ss_get ss "ground_data")
                 (ss_get ss "inference_join_column") (ss_get ss "ground_join_column") 50
       = Err e)
   \/ (is_none (ss_get ss "single_source_data") = false
       /\ df_limit (ss_get ss "single_source_data") 50 = Err e)) ->
  exists w', preview_merge_data join_data df_limit ss w
             = (Err (UnboundLocalError "data"), w')
    /\ tbl w' = tbl w
    /\ In (EError (String.append "Error: " (exn_str e))) (trace w').
Proof.
  intros He [[Hs [E1 [E2 [E3 [E4 Hj]]]]]|[Hs Hl]];
    unfold preview_merge_data, preview_try, try_except, ss_index, lift, bind, ret, throw,
      emit, st_error;
    rewrite Hs.
  - rewrite (validate_pass ss w E1 E2 E3 E4).
    rewrite (ss_lookup_get ss _ E1), (ss_lookup_get ss _ E2), (ss_lookup_get ss _ E3),
      (ss_lookup_get ss _ E4), Hj.
    destruct e; try congruence; eexists; (split; [reflexivity|]); simpl;
      (split; [reflexivity|]); apply in_or_app; simpl; auto.
  - rewrite (ss_lookup_get ss _ Hs), Hl.
    destruct e; try congruence; eexists; (split; [reflexivity|]); simpl;
      (split; [reflexivity|]); apply in_or_app; simpl; auto.
Qed.

Lemma preview_merge_data_unbound_data_witness :
  exists w', preview_merge_data (fun _ _ _ _ _ => Err (KeyError "DATA")) (fun _ _ => Ok PNone)
               [("inference_data", PStr "a"); ("ground_data", PStr "b");
                ("inference_join_column", PStr "ID"); ("ground_join_column", PStr "ID")] w0
             = (Err (UnboundLocalError "data"), w')
    /\ tbl w' = tbl w0
    /\ In (EError (String.append "Error: " (exn_str (KeyError "DATA")))) (trace w').
Proof.
  apply preview_merge_data_unbound_data; [discriminate|].
  left. repeat split.
Defined.

(** * The rest of the page *)

(** ** Dicts and the session state *)

Lemma ss_lookup_dict_set_eq (d : SessionState) k v : ss_lookup (dict_set d k v) k = Some v.
Proof.
  induction d as [|[k' v'] d IH]; simpl.
  - now rewrite String.eqb_refl.
  - destruct (String.eqb_spec k' k); simpl.
    + now rewrite String.eqb_refl.
    + destruct (String.eqb_spec k' k); [congruence | exact IH].
Qed.

Lemma ss_lookup_dict_set_ne (d : SessionState) k k' v :
  k <> k' -> ss_lookup (dict_set d k v) k' = ss_lookup d k'.
Proof.
  intro Hne. induction d as [|[k0 v0] d IH]; simpl.
  - destruct (String.eqb_spec k k'); congruence.
  - destruct (String.eqb_spec k0 k); simpl.
    + subst. destruct (String.eqb_spec k k'); congruence.
    + destruct (String.eqb k0 k'); [reflexivity | exact IH].
Qed.

Lemma ss_get_dict_set_eq d k v : ss_get (dict_set d k v) k = v.
Proof. unfold ss_get. now rewrite ss_lookup_dict_set_eq. Qed.

Lemma ss_get_dict_set_ne d k k' v : k <> k' -> ss_get (dict_set d k v) k' = ss_get d k'.
Proof. intro H. unfold ss_get. now rewrite ss_lookup_dict_set_ne. Qed.

Lemma dict_set_keys {V} (d : list (string * V)) k v x :
  In x (map fst (dict_set d k v)) <-> x = k \/ In x (map fst d).
Proof.
  induction d as [|[k' v'] d IH]; simpl; [intuition congruence|].
  destruct (String.eqb_spec k' k); simpl.
  - subst; intuition congruence.
  - rewrite IH; intuition congruence.
Qed.

Lemma dict_set_NoDup {V} (d : list (string * V)) k v :
  NoDup (map fst d) -> NoDup (map fst (dict_set d k v)).
Proof.
  induction d as [|[k' v'] d IH]; simpl; intro H.
  - repeat constructor; auto.
  - inversion H as [|? ? Hn Hd]; subst.
    destruct (String.eqb_spec k' k); simpl.
    + subst. constructor; assumption.
    + constructor; [|now apply IH]. rewrite dict_set_keys. intros [E|E]; congruence.
Qed.

Lemma dict_set_in {V} (d : list (string * V)) k v k' v' :
  In (k', v') (dict_set d k v) -> (k' = k /\ v' = v) \/ In (k', v') d.
Proof.
  induction d as [|[k0 v0] d IH]; simpl.
  - intros [E|[]]; inversion E; auto.
  - destruct (String.eqb_spec k0 k); simpl.
    + intros [E|E]; [inversion E; auto | auto].
    + intros [E|E]; [auto | destruct (IH E); auto].
Qed.

(** ** Page-level monad *)

Lemma sbind_ok {A B} (m : SM A) (k : A -> SM B) p a p' :
  m p = (Ok a, p') -> sbind m k p = k a p'.
Proof. intro H. unfold sbind. now rewrite H. Qed.

Lemma sbind_err {A B} (m : SM A) (k : A -> SM B) p e p' :
  m p = (Err e, p') -> sbind m k p = (Err e, p').
Proof. intro H. unfold sbind. now rewrite H. Qed.

Lemma sindex_present p k :
  is_none (ss_get (p_ss p) k) = false -> sindex k p = (Ok (ss_get (p_ss p) k), p).
Proof.
  intro H. unfold sindex, sw. rewrite ss_index_get by exact H. destruct p as [ss [t tr]]. reflexivity.
Qed.

(** ** [run_sql] *)

(** [run_sql] never raises: an empty query only shows a warning and gives
    None without issuing any SQL; otherwise the query is issued and its
    frame returned, or the error is shown and None returned. *)
Theorem run_sql_never_raises sql_exec sql w :
  sql_exec sql <> Err StopException ->
  exists v w', run_sql sql_exec sql w = (Ok v, w') /\ tbl w' = tbl w
    /\ (sql = "" -> v = PNone /\ trace w' = trace w ++ [EWarning "Please enter a SQL query."])
    /\ (sql <> "" ->
          In (EQuery sql) (trace w')
          /\ (sql_exec sql = Ok v
              \/ exists e, sql_exec sql = Err e /\ v = PNone
                           /\ In (EError (String.append "Error: " (exn_str e))) (trace w'))).
Proof.
  intro Hs. unfold run_sql.
  destruct (String.eqb_spec sql "") as [->|Hne].
  - do 2 eexists. split; [reflexivity|]. split; [reflexivity|].
    split; [split; reflexivity | congruence].
  - unfold try_except, bind, emit, lift, ret, throw, st_error.
    destruct (sql_exec sql) as [d|e] eqn:E.
    + do 2 eexists. split; [reflexivity|]. split; [reflexivity|].
      split; [congruence|]. intros _. simpl. split; [apply in_or_app; simpl; auto | auto].
    + destruct e; try congruence;
        (do 2 eexists; split; [reflexivity|]; split; [reflexivity|];
         split; [congruence|]; intros _; simpl;
         split; [rewrite <- app_assoc; apply in_or_app; simpl; auto|];
         right; eexists; split; [reflexivity|]; split; [reflexivity|];
         apply in_or_app; simpl; auto).
Qed.

Lemma run_sql_never_raises_witness :
  exists v w', run_sql (fun _ => Err (KeyError "syntax")) "SELECT 1" w0 = (Ok v, w')
    /\ tbl w' = tbl w0
    /\ ("SELECT 1" = "" -> v = PNone /\ trace w' = trace w0 ++ [EWarning "Please enter a SQL query."])
    /\ ("SELECT 1" <> "" ->
          In (EQuery "SELECT 1") (trace w')
          /\ ((fun _ : string => @Err PyVal (KeyError "syntax")) "SELECT 1" = Ok v
              \/ exists e, (fun _ : string => @Err PyVal (KeyError "syntax")) "SELECT 1" = Err e
                   /\ v = PNone
                   /\ In (EError (String.append "Error: " (exn_str e))) (trace w'))).
Proof. apply run_sql_never_raises. discriminate. Defined.

(** ** [data_spec] *)

Lemma append_data_ne_join k :
  String.append k "_data" <> String.append k "_join_column".
Proof. induction k as [|c k IH]; simpl; [discriminate | congruence]. Qed.


Lemma sbind_ok_inv {A B} (m : SM A) (k : A -> SM B) p b p' :
  sbind m k p = (Ok b, p') -> exists a p1, m p = (Ok a, p1) /\ k a p1 = (Ok b, p').
Proof.
  unfold sbind. destruct (m p) as [[a|e] p1]; intro H; [eauto | discriminate].
Qed.

Lemma sindex_inv k p v p' :
  sindex k p = (Ok v, p') -> p' = p /\ ss_lookup (p_ss p) k = Some v.
Proof.
  destruct p as [ss [t tr]]. unfold sindex, sw, ss_index, ret, throw; simpl.
  destruct (ss_lookup ss k); intro H; inversion H; auto.
Qed.

Lemma sw_lift_inv {A} (r : Result A) p a p' :
  sw (lift r) p = (Ok a, p') -> p' = p /\ r = Ok a.
Proof.
  destruct p as [ss [t tr]], r; unfold sw, lift, ret, throw; simpl; intro H;
    inversion H; auto.
Qed.

Lemma pick_one_in {A} (opts : list A) o c : pick_one opts o = Some c -> In c opts.
Proof. destruct o; simpl; [apply nth_error_In | discriminate]. Qed.

(** When [data_spec] with a join key completes, the join column it stores is
    None or one of the columns of the data it stores under [{key}_data]
    (there are no options when that data is None). *)
Theorem data_spec_join_column_of_data ui sql_exec catalog fetch_columns tds df_columns
        key instr p p' :
  data_spec ui sql_exec catalog fetch_columns tds df_columns key instr true p = (Ok tt, p') ->
  ss_get (p_ss p') (String.append key "_join_column") = PNone
  \/ exists c cols,
       ss_get (p_ss p') (String.append key "_data") <> PNone
       /\ df_columns (ss_get (p_ss p') (String.append key "_data")) = Ok cols
       /\ In c cols
       /\ ss_get (p_ss p') (String.append key "_join_column") = PStr c.
Proof.
  intro H. unfold data_spec in H.
  apply sbind_ok_inv in H as [u1 [p1 [_ H]]].
  apply sbind_ok_inv in H as [u2 [p2 [_ H]]].
  apply sbind_ok_inv in H as [v [p3 [Hv H]]].
  apply sindex_inv in Hv as [-> Hv].
  apply sbind_ok_inv in H as [cols [p4 [Hc H]]].
  assert (Hp4 : p4 = p2 /\ (is_none v = true -> cols = [])
                /\ (is_none v = false -> df_columns v = Ok cols)).
  { destruct (is_none v).
    - inversion Hc; subst. split; [reflexivity|]. split; [reflexivity | discriminate].
    - apply sw_lift_inv in Hc as [-> Hc]. split; [reflexivity|]. split; [discriminate|auto]. }
  destruct Hp4 as [-> [Hn1 Hn2]].
  unfold sset in H. inversion H; subst; clear H. simpl.
  rewrite ss_get_dict_set_eq, ss_get_dict_set_ne by (apply not_eq_sym, append_data_ne_join).
  assert (Hg : ss_get (p_ss p2) (String.append key "_data") = v)
    by (unfold ss_get; now rewrite Hv).
  rewrite Hg.
  destruct (is_none v) eqn:En.
  - rewrite (Hn1 eq_refl). left. destruct (ui_select ui _) as [[|i]|]; reflexivity.
  - specialize (Hn2 eq_refl).
    destruct (pick_one cols _) as [c|] eqn:Ep; [right | left; reflexivity].
    exists c, cols. split; [destruct v; simpl in En; congruence|].
    split; [exact Hn2|]. split; [eapply pick_one_in; eauto | reflexivity].
Qed.

(** A page step that only appends to the trace, and never a warning. *)
Definition quiet {A} (m : SM A) : Prop :=
  forall p, exists ev, trace (p_world (snd (m p))) = trace (p_world p) ++ ev
                       /\ forall msg, ~ In (EWarning msg) ev.

Lemma quiet_sret {A} (a : A) : quiet (sret a).
Proof. intro p. exists []. rewrite app_nil_r. split; [reflexivity | intros ? []]. Qed.

Lemma quiet_sthrow {A} e : quiet (@sthrow A e).
Proof. intro p. exists []. rewrite app_nil_r. split; [reflexivity | intros ? []]. Qed.

Lemma quiet_sset k v : quiet (sset k v).
Proof. intro p. exists []. rewrite app_nil_r. split; [reflexivity | intros ? []]. Qed.

Lemma quiet_sindex k : quiet (sindex k).
Proof.
  intro p. exists []. rewrite app_nil_r. destruct p as [ss [t tr]].
  unfold sindex, sw, ss_index, ret, throw; simpl.
  destruct (ss_lookup ss k); (split; [reflexivity | intros ? []]).
Qed.

Lemma quiet_emit ev : (forall msg, ev <> EWarning msg) -> quiet (sw (emit ev)).
Proof.
  intros H p. exists [ev]. destruct p as [ss [t tr]]. split; [reflexivity|].
  intros msg [E|[]]. exact (H msg E).
Qed.

Lemma quiet_lift {A} (r : Result A) : quiet (sw (lift r)).
Proof.
  intro p. exists []. rewrite app_nil_r. destruct p as [ss [t tr]], r;
    (split; [reflexivity | intros ? []]).
Qed.

Lemma quiet_sbind {A B} (m : SM A) (k : A -> SM B) :
  quiet m -> (forall a, quiet (k a)) -> quiet (sbind m k).
Proof.
  intros Hm Hk p. destruct (Hm p) as [ev1 [E1 N1]]. unfold sbind.
  destruct (m p) as [[a|e] p1]; simpl in *.
  - destruct (Hk a p1) as [ev2 [E2 N2]]. exists (ev1 ++ ev2).
    rewrite E2, E1, app_assoc. split; [reflexivity|].
    intros msg Hin. apply in_app_or in Hin as [Hin|Hin]; [exact (N1 _ Hin) | exact (N2 _ Hin)].
  - exists ev1. split; [exact E1 | exact N1].
Qed.

Lemma quiet_run_sql sql_exec sql : sql <> "" -> quiet (sw (run_sql sql_exec sql)).
Proof.
  intros Hne p. destruct p as [ss [t tr]]. unfold sw, run_sql.
  destruct (String.eqb_spec sql "") as [E|_]; [contradiction|].
  unfold try_except, bind, emit, lift, ret, throw, st_error. simpl.
  destruct (sql_exec sql) as [d|e].
  - exists [EQuery sql]. split; [reflexivity|]. intros msg [E|[]]; discriminate.
  - destruct e; simpl;
      (eexists; split;
       [rewrite <- ?app_assoc; reflexivity
       | intros m0 H; simpl in H; repeat destruct H as [H|H]; try discriminate; contradiction]).
Qed.

Create HintDb quiet.
#[local] Hint Resolve quiet_sret quiet_sthrow quiet_sset quiet_sindex quiet_lift
  quiet_sbind : quiet.

(** [data_spec] never shows the "Please enter a SQL query." warning of
    [run_sql] (nor any warning): it only calls [run_sql] on a non-empty
    query. *)
Theorem data_spec_never_warns ui sql_exec catalog fetch_columns tds df_columns
        key instr join_key p :
  forall msg,
    In (EWarning msg) (trace (p_world (snd
      (data_spec ui sql_exec catalog fetch_columns tds df_columns key instr join_key p)))) ->
    In (EWarning msg) (trace (p_world p)).
Proof.
  intros msg Hin.
  assert (Q : quiet (data_spec ui sql_exec catalog fetch_columns tds df_columns key instr join_key)).
  { unfold data_spec. apply quiet_sbind; [apply quiet_emit; discriminate|]. intros _.
    apply quiet_sbind.
    - destruct (ui_toggle ui _); [|apply quiet_sset].
      destruct (String.eqb_spec (ui_text ui (String.append key "_code_input")) "");
        [apply quiet_sret|].
      apply quiet_sbind; [apply quiet_run_sql; assumption | intro; apply quiet_sset].
    - intros _. destruct join_key; [|apply quiet_sret].
      apply quiet_sbind; [apply quiet_sindex|]. intro v.
      apply quiet_sbind; [destruct (is_none v); auto with quiet|]. intro. apply quiet_sset. }
  destruct (Q p) as [ev [E N]]. rewrite E in Hin.
  apply in_app_or in Hin as [Hin|Hin]; [exact Hin | exfalso; exact (N _ Hin)].
Qed.

(** ** [source_data_selector] *)

Lemma row_get_app_l (r1 r2 : Row) k :
  row_get (r1 ++ r2) k = match row_get r1 k with Some v => Some v | None => row_get r2 k end.
Proof.
  induction r1 as [|[c x] r1 IH]; simpl; [reflexivity|].
  destruct (String.eqb c k); [reflexivity | exact IH].
Qed.

Lemma row_get_project_none r cols c : row_get r c = None -> row_get (project r cols) c = None.
Proof.
  intro H. induction cols as [|c0 cols IH]; simpl; [reflexivity|].
  rewrite row_get_app_l. fold (project r cols).
  destruct (row_get r c0) eqn:E; simpl; [|exact IH].
  destruct (String.eqb_spec c0 c); [congruence | exact IH].
Qed.

Lemma row_get_project r cols c : In c cols -> row_get (project r cols) c = row_get r c.
Proof.
  induction cols as [|c0 cols IH]; intros Hc; [destruct Hc|].
  simpl. rewrite row_get_app_l. fold (project r cols).
  destruct (String.eqb_spec c0 c) as [<-|Hne].
  - destruct (row_get r c0) eqn:E; simpl.
    + now rewrite String.eqb_refl.
    + now apply row_get_project_none.
  - destruct Hc as [Hc|Hc]; [congruence|].
    destruct (row_get r c0); simpl; [|auto].
    destruct (String.eqb_spec c0 c); [congruence | auto].
Qed.

Lemma pick_many_in {A} (opts : list A) idx c : In c (pick_many opts idx) -> In c opts.
Proof.
  unfold pick_many. intro H. apply in_flat_map in H as [i [_ H]].
  destruct (nth_error opts i) eqn:E; [|destruct H].
  destruct H as [<-|[]]. eapply nth_error_In; eauto.
Qed.

(** [source_data_selector] returns None when no column is selected;
    otherwise a frame with exactly the selected columns (each one offered by
    [fetch_columns]), the table's row count, and each row's values of those
    columns. *)
Theorem source_data_selector_spec ui catalog fetch_columns tds name db sc t :
  tds name = (db, sc, t) ->
  let selected := pick_many (fetch_columns db sc t) (ui_multi ui (String.append "columns_" name)) in
  (forall c, In c selected -> In c (fetch_columns db sc t))
  /\ (selected = [] -> source_data_selector ui catalog fetch_columns tds name = PNone)
  /\ (selected <> [] ->
      exists t', source_data_selector ui catalog fetch_columns tds name = PFrame t'
        /\ t_cols t' = selected
        /\ List.length (t_rows t') = List.length (t_rows (catalog (fqn db sc t)))
        /\ Forall2 (fun r r' => forall c, In c selected -> row_get r' c = row_get r c)
                   (t_rows (catalog (fqn db sc t))) (t_rows t')).
Proof.
  intros Htds selected. unfold source_data_selector. rewrite Htds. fold selected.
  split; [intros c; apply pick_many_in|].
  split; [intros ->; reflexivity|]. intro Hne.
  exists (select_cols (catalog (fqn db sc t)) selected).
  split; [destruct selected; [congruence | reflexivity]|].
  simpl. split; [reflexivity|]. split; [apply length_map|].
  induction (t_rows (catalog (fqn db sc t))) as [|r rs IH]; simpl; constructor; [|exact IH].
  intros c Hc. now apply row_get_project.
Qed.

(** ** Session-state helpers *)

Lemma sw_ss {A} (m : M A) p r p1 : sw m p = (r, p1) -> p_ss p1 = p_ss p.
Proof. destruct p as [ss w]. unfold sw. simpl. destruct (m w). intro H; now inversion H. Qed.

Lemma sw_trace {A} (m : M A) p r p1 :
  sw m p = (r, p1) -> p_world p1 = snd (m (p_world p)).
Proof. destruct p as [ss w]. unfold sw. simpl. destruct (m w). intro H; now inversion H. Qed.

Lemma stry_ok_inv {A} (m : SM A) h p a p1 :
  stry m h p = (Ok a, p1) ->
  m p = (Ok a, p1) \/ exists e p2, m p = (Err e, p2) /\ h e p2 = (Ok a, p1).
Proof.
  unfold stry. destruct (m p) as [[x|e] p2]; intro H; [left; exact H|].
  destruct e; try discriminate; right; eauto.
Qed.

Lemma ss_lookup_get_some ss k v : ss_lookup ss k = Some v -> ss_get ss k = v.
Proof. unfold ss_get. now intros ->. Qed.

(** The columns [configure_metrics] offers come from the data it pulled. *)
Definition pulled (df_columns : PyVal -> Result (list string))
           (join_data : PyVal -> PyVal -> PyVal -> PyVal -> option nat -> Result PyVal)
           (ss : SessionState) (cols : list string) : Prop :=
  if is_none (ss_get ss "single_source_data") then
    exists d, join_data (ss_get ss "inference_data") (ss_get ss "ground_data")
                        (ss_get ss "inference_join_column") (ss_get ss "ground_join_column")
                        (Some 5) = Ok d
              /\ df_columns d = Ok cols
  else df_columns (ss_get ss "single_source_data") = Ok cols.

Ltac sstep H := let a := fresh "a" in let q := fresh "q" in let Hm := fresh "Hm" in
  apply sbind_ok_inv in H as [a [q [Hm H]]].

(** A page step that leaves the session state as it is. *)
Definition keeps_ss {A} (m : SM A) : Prop := forall p, p_ss (snd (m p)) = p_ss p.

Lemma keeps_ss_sret {A} (a : A) : keeps_ss (sret a).
Proof. intro p; reflexivity. Qed.
Lemma keeps_ss_sthrow {A} e : keeps_ss (@sthrow A e).
Proof. intro p; reflexivity. Qed.
Lemma keeps_ss_sw {A} (m : M A) : keeps_ss (sw m).
Proof. intro p. destruct p as [ss w]. unfold sw. simpl. now destruct (m w). Qed.
Lemma keeps_ss_sindex k : keeps_ss (sindex k).
Proof. intro p. apply keeps_ss_sw. Qed.
Lemma keeps_ss_sget k : keeps_ss (sget k).
Proof. intro p; reflexivity. Qed.
Lemma keeps_ss_cur_ss : keeps_ss cur_ss.
Proof. intro p; reflexivity. Qed.
Lemma keeps_ss_sbind {A B} (m : SM A) (k : A -> SM B) :
  keeps_ss m -> (forall a, keeps_ss (k a)) -> keeps_ss (sbind m k).
Proof.
  intros Hm Hk p. specialize (Hm p). unfold sbind.
  destruct (m p) as [[a|e] p1]; simpl in *; [rewrite Hk; exact Hm | exact Hm].
Qed.
Lemma keeps_ss_stry {A} (m : SM A) h :
  keeps_ss m -> (forall e, keeps_ss (h e)) -> keeps_ss (stry m h).
Proof.
  intros Hm Hh p. specialize (Hm p). unfold stry.
  destruct (m p) as [[a|e] p1]; simpl in *; [exact Hm|].
  destruct e; simpl; try (rewrite Hh); exact Hm.
Qed.

Create HintDb keeps_ss.
#[local] Hint Resolve keeps_ss_sret keeps_ss_sthrow keeps_ss_sw keeps_ss_sindex keeps_ss_sget
  keeps_ss_cur_ss keeps_ss_sbind keeps_ss_stry : keeps_ss.

Lemma keeps_ss_ok {A} (m : SM A) p r p1 : keeps_ss m -> m p = (r, p1) -> p_ss p1 = p_ss p.
Proof. intros K H. specialize (K p). now rewrite H in K. Qed.

Lemma keeps_ss_pull_columns df_columns join_data : keeps_ss (pull_columns df_columns join_data).
Proof.
  unfold pull_columns. cbv zeta. apply keeps_ss_sbind; [auto with keeps_ss|]. intro s.
  destruct (is_none s);
    repeat first [solve [auto with keeps_ss] | apply keeps_ss_sbind | apply keeps_ss_stry | intro].
Qed.

Lemma sget_inv k p v p1 : sget k p = (Ok v, p1) -> p1 = p /\ v = ss_get (p_ss p) k.
Proof. unfold sget. intro H. now inversion H. Qed.
Lemma cur_ss_inv p v p1 : cur_ss p = (Ok v, p1) -> p1 = p /\ v = p_ss p.
Proof. unfold cur_ss. intro H. now inversion H. Qed.
Lemma sret_inv {A} (a b : A) p p1 : sret a p = (Ok b, p1) -> p1 = p /\ b = a.
Proof. unfold sret. intro H. now inversion H. Qed.

Lemma pull_columns_ok df_columns join_data p oc p1 :
  pull_columns df_columns join_data p = (Ok oc, p1) ->
  p_ss p1 = p_ss p /\ forall cols, oc = Some cols -> pulled df_columns join_data (p_ss p) cols.
Proof.
  intro H. split; [exact (keeps_ss_ok _ _ _ _ (keeps_ss_pull_columns _ _) H)|].
  unfold pull_columns, pulled in *. sstep H. apply sget_inv in Hm as [-> ->].
  destruct (is_none (ss_get (p_ss p) "single_source_data")) eqn:En.
  - sstep H. apply cur_ss_inv in Hm as [-> ->].
    sstep H. pose proof (sw_ss _ _ _ _ Hm) as Hs0.
    apply stry_ok_inv in H as [H|[e [p2 [_ H]]]].
    + sstep H. apply sindex_inv in Hm0 as [-> H1].
      sstep H. apply sindex_inv in Hm0 as [-> H2].
      sstep H. apply sindex_inv in Hm0 as [-> H3].
      sstep H. apply sindex_inv in Hm0 as [-> H4].
      sstep H. clear Hm0.
      sstep H. apply sw_lift_inv in Hm0 as [-> Hj].
      sstep H. apply sw_lift_inv in Hm0 as [-> Hc].
      apply sret_inv in H as [-> Eo]. subst oc.
      intros cols Ec; inversion Ec; subst. rewrite Hs0 in *.
      rewrite (ss_lookup_get_some _ _ _ H1), (ss_lookup_get_some _ _ _ H2),
        (ss_lookup_get_some _ _ _ H3), (ss_lookup_get_some _ _ _ H4). eauto.
    + sstep H. apply sret_inv in H as [-> ->]. discriminate.
  - apply stry_ok_inv in H as [H|[e [p2 [Hm0 H]]]].
    + sstep H. apply sindex_inv in Hm as [-> H1].
      sstep H. apply sw_lift_inv in Hm as [-> Hc].
      apply sret_inv in H as [-> ->].
      intros cols Ec; inversion Ec; subst.
      now rewrite (ss_lookup_get_some _ _ _ H1).
    + sstep H. apply sret_inv in H as [-> ->]. discriminate.
Qed.

(** ** [configure_metrics] *)

Definition good_param (columns : option (list string)) (x : PyVal) : Prop :=
  x = PNone \/ exists c cols, columns = Some cols /\ In c cols /\ x = PStr c.

Lemma select_params_ok ui mname columns req acc p mp p1 :
  select_params ui mname columns req acc p = (Ok mp, p1) ->
  p1 = p
  /\ (forall k, In k (map fst mp) <-> In k (map fst acc) \/ In k (map fst req))
  /\ ((forall k x, In (k, x) acc -> good_param columns x) ->
      forall k x, In (k, x) mp -> good_param columns x).
Proof.
  revert acc. induction req as [|[prm d] req IH]; intros acc H; simpl in H.
  - apply sret_inv in H as [-> ->]. split; [reflexivity|]. split; [simpl; tauto | auto].
  - destruct columns as [cols|]; [|discriminate].
    apply IH in H as [-> [Hk Hg]]. split; [reflexivity|]. split.
    + intro k. rewrite Hk, dict_set_keys. simpl. intuition.
    + intros Hacc. apply Hg. intros k x Hin. apply dict_set_in in Hin as [[-> ->]|Hin]; [|eauto].
      destruct (pick_one cols _) as [c|] eqn:E; [right | left; reflexivity].
      exists c, cols. split; [reflexivity|]. split; [eapply pick_one_in; eauto | reflexivity].
Qed.

Lemma select_params_none ui mname req acc p :
  req <> [] -> select_params ui mname None req acc p = (Err (UnboundLocalError "columns"), p).
Proof. destruct req as [|[prm d] req]; [congruence | reflexivity]. Qed.

Lemma select_metrics_ok ui columns ms acc p r p1 :
  select_metrics ui columns ms acc p = (Ok r, p1) ->
  p_ss p1 = p_ss p
  /\ (forall k, In k (map fst r) <-> In k (map fst acc) \/ In k (map m_name ms))
  /\ (NoDup (map fst acc) -> NoDup (map fst r))
  /\ (forall k v, In (k, v) r ->
        In (k, v) acc
        \/ exists m mp, In m ms /\ m_name m = k /\ v = PDict mp
             /\ (forall q, In q (map fst mp) <-> In q (map fst (m_required m)))
             /\ forall q x, In (q, x) mp -> good_param columns x).
Proof.
  revert acc p. induction ms as [|m ms IH]; intros acc p H; simpl in H.
  - apply sret_inv in H as [-> ->]. split; [reflexivity|]. split; [simpl; tauto|].
    split; [auto | auto].
  - sstep H. apply sw_ss in Hm. sstep H. apply sw_ss in Hm0.
    sstep H. apply select_params_ok in Hm1 as [-> [Hk Hg]].
    apply IH in H as [Hs [Hk' [Hn Hv]]].
    split; [congruence|]. split.
    + intro k. rewrite Hk', dict_set_keys. simpl. intuition.
    + split; [intro; apply Hn, dict_set_NoDup; assumption|].
      intros k v Hin. apply Hv in Hin as [Hin|[m' [mp [Hm' Hrest]]]].
      * apply dict_set_in in Hin as [[-> ->]|Hin]; [|left; exact Hin].
        right. exists m, a1. split; [left; reflexivity|]. split; [reflexivity|].
        split; [reflexivity|]. split.
        -- intro q9. rewrite Hk. simpl. tauto.
        -- apply Hg. intros ? ? [].
      * right. exists m', mp. split; [right; exact Hm' | exact Hrest].
Qed.

Lemma select_metrics_none ui ms acc p :
  (exists m, In m ms /\ m_required m <> []) ->
  exists p1, select_metrics ui None ms acc p = (Err (UnboundLocalError "columns"), p1)
    /\ p_ss p1 = p_ss p
    /\ exists ev, trace (p_world p1) = trace (p_world p) ++ ev.
Proof.
  revert acc p. induction ms as [|m ms IH]; intros acc p [m0 [Hin Hr]]; [destruct Hin|].
  destruct p as [ss [t tr]]. cbn [select_metrics]. unfold sbind at 1. simpl.
  unfold sbind at 1. simpl.
  destruct (m_required m) as [|[prm d] req] eqn:Er.
  - cbn [select_params]. unfold sbind at 1, sret.
    destruct Hin as [<-|Hin]; [contradiction|].
    edestruct IH as [p1 [E [Es [ev Ev]]]]; [exact (ex_intro _ m0 (conj Hin Hr))|].
    exists p1. split; [rewrite <- E; reflexivity|]. split; [exact Es|].
    eexists. rewrite Ev. simpl. rewrite <- !app_assoc. reflexivity.
  - cbn [select_params]. eexists. split; [reflexivity|]. split; [reflexivity|].
    eexists. simpl. rewrite <- !app_assoc. reflexivity.
Qed.

(** When [configure_metrics] completes without the Run button, it stores
    under [param_selection] a dict keyed exactly by the selected metrics'
    names (no key twice), each value a dict of that metric's required
    parameters, each assigned None or a column of the data the dialog pulled;
    no key other than one ending in "_selection" (its selectboxes' keys and
    [param_selection]) changes. *)
Theorem configure_metrics_param_selection ui df_columns df_query0 join_data metric_runner
        ms p p' :
  ss_lookup (p_ss p) "selected_metrics" = Some (PMetrics ms) ->
  ui_button ui "Run" = false ->
  configure_metrics ui df_columns df_query0 join_data metric_runner p = (Ok tt, p') ->
  exists r,
    ss_lookup (p_ss p') "param_selection" = Some (PDict r)
    /\ (forall k, (forall pre, k <> String.append pre "_selection") ->
          ss_lookup (p_ss p') k = ss_lookup (p_ss p) k)
    /\ NoDup (map fst r)
    /\ (forall k, In k (map fst r) <-> In k (map m_name ms))
    /\ forall k v, In (k, v) r ->
         exists m mp, In m ms /\ m_name m = k /\ v = PDict mp
           /\ (forall q, In q (map fst mp) <-> In q (map fst (m_required m)))
           /\ forall q x, In (q, x) mp ->
                x = PNone \/ exists c cols, pulled df_columns join_data (p_ss p) cols
                                            /\ In c cols /\ x = PStr c.
Proof.
  intros Hsel Hb H. unfold configure_metrics in H.
  apply sbind_ok_inv in H as [u0 [p0 [H0 H]]]. apply sw_ss in H0.
  apply sbind_ok_inv in H as [oc [p1 [H1 H]]]. apply pull_columns_ok in H1 as [Hs1 Hcols].
  apply sbind_ok_inv in H as [sel [p2 [H2 H]]]. apply sindex_inv in H2 as [-> Hl].
  rewrite Hs1, H0, Hsel in Hl. injection Hl as <-.
  apply sbind_ok_inv in H as [r [p3 [H3 H]]].
  apply select_metrics_ok in H3 as [Hs2 [Hk [Hn Hv]]].
  apply sbind_ok_inv in H as [u4 [p4 [H4 H]]]. unfold sset in H4. injection H4 as _ <-.
  rewrite Hb in H. apply sret_inv in H as [-> _].
  exists r. simpl. rewrite Hs2, Hs1, H0. split; [apply ss_lookup_dict_set_eq|].
  split.
  { intros k Hk9. apply ss_lookup_dict_set_ne. intro E. apply (Hk9 "param"). rewrite <- E.
    reflexivity. }
  split; [apply Hn; constructor|]. split.
  - intro k. rewrite Hk. simpl. tauto.
  - intros k v Hin. apply Hv in Hin as [[]|[m [mp [Hm1 [Hm2 [Hm3 [Hm4 Hm5]]]]]]].
    exists m, mp. repeat (split; [assumption|]).
    intros q x Hq. destruct (Hm5 q x Hq) as [->|[c [cols [Ec [Hc ->]]]]]; [left; reflexivity|].
    right. exists c, cols. rewrite <- H0. split; [now apply Hcols | split; auto].
Qed.

Lemma sindex_page ss w k v :
  ss_lookup ss k = Some v -> sindex k (mkPage ss w) = (Ok v, mkPage ss w).
Proof. intro H. destruct w. unfold sindex, sw, ss_index. simpl. now rewrite H. Qed.

(** When the columns of the single source data cannot be read, the dialog
    shows "Error in pulling data: ..." and then raises UnboundLocalError on
    [columns] at the first selected metric with a required parameter; the
    session state is left as it was ([param_selection] is not written). *)
Theorem configure_metrics_unbound_columns ui df_columns df_query0 join_data metric_runner
        ms e p :
  is_none (ss_get (p_ss p) "single_source_data") = false ->
  df_columns (ss_get (p_ss p) "single_source_data") = Err e ->
  e <> StopException ->
  ss_lookup (p_ss p) "selected_metrics" = Some (PMetrics ms) ->
  (exists m, In m ms /\ m_required m <> []) ->
  exists p', configure_metrics ui df_columns df_query0 join_data metric_runner p
               = (Err (UnboundLocalError "columns"), p')
    /\ p_ss p' = p_ss p
    /\ In (EError (String.append "Error in pulling data: " (exn_str e))) (trace (p_world p')).
Proof.
  intros Hn He Hne Hsel Hreq. destruct p as [ss [t tr]]. simpl in *.
  set (msg := String.append "Error in pulling data: " (exn_str e)).
  set (w1 := mkWorld t (tr ++ [EWrite "Select a column for each required parameter."])).
  assert (Hp : pull_columns df_columns join_data (mkPage ss w1)
               = (Ok None, mkPage ss (mkWorld t (trace w1 ++ [EError msg])))).
  { unfold pull_columns, sbind at 1, sget. simpl. rewrite Hn.
    unfold stry, sbind at 1. rewrite (sindex_page _ _ _ _ (ss_lookup_get _ _ Hn)).
    unfold sw at 1, lift. simpl. rewrite He.
    destruct e; try congruence; reflexivity. }
  unfold configure_metrics.
  rewrite (sbind_ok _ _ _ tt (mkPage ss w1)) by reflexivity.
  rewrite (sbind_ok _ _ _ _ _ Hp).
  rewrite (sbind_ok _ _ _ _ _ (sindex_page _ _ _ _ Hsel)).
  destruct (select_metrics_none ui ms [] (mkPage ss (mkWorld t (trace w1 ++ [EError msg])))
              Hreq) as [p1 [E [Es [ev Ev]]]].
  rewrite (sbind_err _ _ _ _ _ E). exists p1. split; [reflexivity|].
  split; [exact Es|]. rewrite Ev. simpl. apply in_or_app. left. apply in_or_app. right. left.
  reflexivity.
Qed.

(** ** [run_eval] *)

Lemma sset_inv k v p u p1 : sset k v p = (Ok u, p1) -> p1 = mkPage (dict_set (p_ss p) k v) (p_world p).
Proof. unfold sset. intro H. now inversion H. Qed.

Lemma sw_emit_inv ev p u p1 :
  sw (emit ev) p = (Ok u, p1) ->
  p1 = mkPage (p_ss p) (mkWorld (tbl (p_world p)) (trace (p_world p) ++ [ev])).
Proof. destruct p as [ss [t tr]]. unfold sw, emit. simpl. intro H. now inversion H. Qed.

(** When [run_eval] completes: without [param_selection] it only shows an
    error; otherwise it has called [metric_runner] on the source data (the
    single source, or the unlimited join of the four selections) whose first
    query it saved as [source_sql], stored the runner's result as
    [metric_result_data], set [eval_funnel] to "new", and its last step is
    the switch to the results page. *)
Theorem run_eval_completes df_query0 join_data metric_runner p p' :
  run_eval df_query0 join_data metric_runner p = (Ok tt, p') ->
  let ss := p_ss p in
  (is_none (ss_get ss "param_selection") = true ->
     p' = mkPage ss (mkWorld (tbl (p_world p))
            (trace (p_world p) ++ [EError "Please select columns for all required parameters."])))
  /\ (is_none (ss_get ss "param_selection") = false ->
      exists d q r ev,
        (if is_none (ss_get ss "single_source_data")
         then join_data (ss_get ss "inference_data") (ss_get ss "ground_data")
                        (ss_get ss "inference_join_column") (ss_get ss "ground_join_column")
                        None = Ok d
         else d = ss_get ss "single_source_data")
        /\ df_query0 d = Ok q
        /\ metric_runner (ss_get ss "selected_metrics") (ss_get ss "param_selection") d None = Ok r
        /\ p_ss p' = dict_set (dict_set (dict_set (dict_set ss "metric_result_data" d)
                                   "source_sql" (PStr q)) "metric_result_data" r)
                              "eval_funnel" (PStr "new")
        /\ trace (p_world p') = trace (p_world p) ++ ev ++ [ESwitchPage "pages/results.py"]).
Proof.
  intros H ss. subst ss. unfold run_eval in H.
  apply sbind_ok_inv in H as [ps [p0 [H0 H]]]. apply sget_inv in H0 as [-> ->].
  split; intro Hps; rewrite Hps in H.
  - destruct p as [s0 [t tr]]. unfold sw, st_error, emit in H. simpl in H.
    now inversion H.
  - apply sbind_ok_inv in H as [single [p1 [H1 H]]]. apply sget_inv in H1 as [-> ->].
    apply sbind_ok_inv in H as [d [p2 [H2 H]]].
    assert (Hd : (if is_none (ss_get (p_ss p) "single_source_data")
                  then join_data (ss_get (p_ss p) "inference_data") (ss_get (p_ss p) "ground_data")
                         (ss_get (p_ss p) "inference_join_column") (ss_get (p_ss p) "ground_join_column")
                         None = Ok d
                  else d = ss_get (p_ss p) "single_source_data")
                 /\ p_ss p2 = p_ss p
                 /\ exists ev, p_world p2 = mkWorld (tbl (p_world p)) (trace (p_world p) ++ ev)).
    { destruct (is_none (ss_get (p_ss p) "single_source_data")) eqn:En.
      - apply sbind_ok_inv in H2 as [iv [q1 [Hi H2]]]. apply sindex_inv in Hi as [-> Hi].
        apply sbind_ok_inv in H2 as [gv [q2 [Hg H2]]]. apply sindex_inv in Hg as [-> Hg].
        apply sbind_ok_inv in H2 as [ik [q3 [Hik H2]]]. apply sindex_inv in Hik as [-> Hik].
        apply sbind_ok_inv in H2 as [gk [q4 [Hgk H2]]]. apply sindex_inv in Hgk as [-> Hgk].
        apply sbind_ok_inv in H2 as [u [q5 [Hj H2]]]. apply sw_emit_inv in Hj as ->.
        apply sw_lift_inv in H2 as [-> Hjd].
        rewrite (ss_lookup_get_some _ _ _ Hi), (ss_lookup_get_some _ _ _ Hg),
          (ss_lookup_get_some _ _ _ Hik), (ss_lookup_get_some _ _ _ Hgk).
        split; [exact Hjd|]. split; [reflexivity|]. eexists. reflexivity.
      - apply sindex_inv in H2 as [-> Hs]. rewrite (ss_lookup_get_some _ _ _ Hs).
        split; [reflexivity|]. split; [reflexivity|]. exists []. rewrite app_nil_r.
        destruct (p_world p); reflexivity. }
    destruct Hd as [Hd [Hs2 [ev Hw2]]].
    apply sbind_ok_inv in H as [u3 [p3 [H3 H]]]. apply sset_inv in H3 as ->.
    apply sbind_ok_inv in H as [m [p4 [H4 H]]]. apply sindex_inv in H4 as [-> H4].
    simpl in H4. rewrite ss_lookup_dict_set_eq in H4. injection H4 as <-.
    apply sbind_ok_inv in H as [q [p5 [H5 H]]]. apply sw_lift_inv in H5 as [-> H5].
    apply sbind_ok_inv in H as [u6 [p6 [H6 H]]]. apply sset_inv in H6 as ->.
    apply sbind_ok_inv in H as [ms [p7 [H7 H]]]. apply sindex_inv in H7 as [-> H7].
    apply sbind_ok_inv in H as [pa [p8 [H8 H]]]. apply sindex_inv in H8 as [-> H8].
    apply sbind_ok_inv in H as [src [p9 [H9 H]]]. apply sindex_inv in H9 as [-> H9].
    apply sbind_ok_inv in H as [r [p10 [H10 H]]]. apply sw_lift_inv in H10 as [-> H10].
    apply sbind_ok_inv in H as [u11 [p11 [H11 H]]]. apply sset_inv in H11 as ->.
    apply sbind_ok_inv in H as [u12 [p12 [H12 H]]]. apply sset_inv in H12 as ->.
    apply sw_emit_inv in H as ->. simpl in *.
    rewrite Hs2 in *.
    rewrite ss_lookup_dict_set_ne in H7, H8 by discriminate.
    rewrite ss_lookup_dict_set_ne in H7, H8 by discriminate.
    rewrite ss_lookup_dict_set_ne in H9 by discriminate. rewrite ss_lookup_dict_set_eq in H9.
    injection H9 as <-.
    exists d, q, r, ev. split; [exact Hd|]. split; [exact H5|].
    split; [rewrite (ss_lookup_get_some _ _ _ H7), (ss_lookup_get_some _ _ _ H8); exact H10|].
    split; [reflexivity|]. rewrite Hw2. simpl. now rewrite <- app_assoc.
Qed.

(** With a single source selected, when [metric_runner] raises, [run_eval]
    raises the same error after having overwritten [metric_result_data]
    with the source frame and [source_sql] with its query: [eval_funnel] is
    not set and there is no switch to the results page. *)
Theorem run_eval_runner_error_partial df_query0 join_data metric_runner p ms q e :
  let ss := p_ss p in
  is_none (ss_get ss "param_selection") = false ->
  is_none (ss_get ss "single_source_data") = false ->
  ss_lookup ss "selected_metrics" = Some ms ->
  df_query0 (ss_get ss "single_source_data") = Ok q ->
  metric_runner ms (ss_get ss "param_selection") (ss_get ss "single_source_data") None = Err e ->
  run_eval df_query0 join_data metric_runner p
  = (Err e, mkPage (dict_set (dict_set ss "metric_result_data" (ss_get ss "single_source_data"))
                             "source_sql" (PStr q))
                   (p_world p)).
Proof.
  intros ss Hps Hs Hms Hq Hr. subst ss. destruct p as [ss w]. simpl in *.
  unfold run_eval.
  erewrite sbind_ok by reflexivity. cbv beta; cbn [p_ss p_world]. rewrite Hps.
  erewrite sbind_ok by reflexivity. cbv beta; cbn [p_ss p_world]. rewrite Hs.
  erewrite sbind_ok by (apply sindex_page, ss_lookup_get, Hs). cbv beta; cbn [p_ss p_world].
  erewrite sbind_ok by reflexivity. cbv beta; cbn [p_ss p_world].
  erewrite sbind_ok by (apply sindex_page, ss_lookup_dict_set_eq). cbv beta; cbn [p_ss p_world].
  erewrite sbind_ok by (unfold sw, lift; rewrite Hq; reflexivity). cbv beta; cbn [p_ss p_world].
  erewrite sbind_ok by reflexivity. cbv beta; cbn [p_ss p_world].
  erewrite sbind_ok
    by (apply sindex_page; cbn [p_ss]; rewrite !ss_lookup_dict_set_ne by discriminate; exact Hms).
  cbv beta; cbn [p_ss p_world].
  erewrite sbind_ok
    by (apply sindex_page; cbn [p_ss]; rewrite !ss_lookup_dict_set_ne by discriminate;
        exact (ss_lookup_get _ _ Hps)).
  cbv beta; cbn [p_ss p_world].
  erewrite sbind_ok
    by (apply sindex_page; cbn [p_ss]; rewrite ss_lookup_dict_set_ne by discriminate;
        apply ss_lookup_dict_set_eq).
  cbv beta; cbn [p_ss p_world].
  erewrite sbind_err by (unfold sw, lift; rewrite Hr; reflexivity).
  reflexivity.
Qed.

(** ** [pipeline_runner_dialog] *)

Lemma split_paren0_append s1 s2 :
  split_paren0 s1 = s1 -> split_paren0 (String.append s1 s2) = String.append s1 (split_paren0 s2).
Proof.
  induction s1 as [|c s1 IH]; simpl; [reflexivity|].
  destruct (Ascii.eqb c "("%char); [discriminate|]. intro H. injection H as H.
  now rewrite (IH H).
Qed.

Lemma split_paren0_fqn db sc n :
  split_paren0 db = db -> split_paren0 sc = sc ->
  split_paren0 (fqn db sc n) = fqn db sc (split_paren0 n).
Proof.
  intros Hd Hs. unfold fqn.
  rewrite split_paren0_append by exact Hd. simpl.
  rewrite split_paren0_append by exact Hs. reflexivity.
Qed.

(** The options of the stored procedure selectbox during a run of the
    dialog from the session state [ss]. *)
Definition dialog_sproc_options (ss : SessionState) : list string :=
  sproc_names (match ss_lookup ss "runner_sprocs" with Some v => v | None => PList [] end).

(** The stored procedure [pipeline_runner_dialog] runs is the selected one
    with its argument signature cut off at the first "(" (and "None" when
    nothing is selected), in the chosen database and schema, when neither
    of those names contains "(": two procedure resolvers that agree there
    give the same run. *)
Theorem pipeline_runner_dialog_strips_signature ui catalog tds db sc procs procs' bs p :
  split_paren0 db = db -> split_paren0 sc = sc ->
  let n := fstr (pick_one (dialog_sproc_options (p_ss p)) (ui_select ui "Select Stored Procedure")) in
  procs' (fqn db sc (split_paren0 n)) = procs (fqn db sc (split_paren0 n)) ->
  pipeline_runner_dialog ui catalog tds (db, sc) procs' bs p
  = pipeline_runner_dialog ui catalog tds (db, sc) procs bs p.
Proof.
  intros Hd Hs n Hn. subst n. unfold dialog_sproc_options in Hn.
  destruct p as [ss [t tr]]. simpl in Hn.
  unfold pipeline_runner_dialog, sbind, sw, st_write, emit, cur_ss, sindex, sset, sret, ss_index.
  cbv zeta. cbn [p_ss p_world].
  change (String.append "runner" "_sprocs") with "runner_sprocs".
  destruct (ss_lookup ss "runner_sprocs") as [v|] eqn:E; cbn [p_ss p_world].
  - rewrite E. cbn [sw ret p_ss p_world].
    destruct (tds "runner_output") as [[tdb tsc] tname].
    destruct (ui_button ui "Run"); [|reflexivity].
    rewrite !split_paren0_fqn by assumption. rewrite Hn. reflexivity.
  - rewrite ss_lookup_dict_set_eq. cbn [sw ret p_ss p_world].
    destruct (tds "runner_output") as [[tdb tsc] tname].
    destruct (ui_button ui "Run"); [|reflexivity].
    rewrite !split_paren0_fqn by assumption. rewrite Hn. reflexivity.
Qed.

Lemma pipeline_runner_no_rows sproc bs src w :
  t_rows src = [] -> existsb (String.eqb "ROW_ID") (t_cols src) = false ->
  pipeline_runner sproc bs src w = (Err (UnboundLocalError "results"), w).
Proof.
  destruct src as [cols rows]. cbn [t_cols t_rows]. intros -> H.
  unfold pipeline_runner, add_row_id, bind. cbn [t_cols t_rows]. rewrite H. reflexivity.
Qed.

Lemma pipeline_runner_no_rows_any sproc bs src w :
  t_rows src = [] ->
  pipeline_runner sproc bs src w
  = (Err (if existsb (String.eqb "ROW_ID") (t_cols src) then ColumnExists "ROW_ID"
          else UnboundLocalError "results"), w).
Proof.
  intro H. destruct (existsb (String.eqb "ROW_ID") (t_cols src)) eqn:E.
  - unfold pipeline_runner, add_row_id, bind. rewrite E. reflexivity.
  - exact (pipeline_runner_no_rows sproc bs src w H E).
Qed.

(** Run on a reference table without rows: the dialog raises after its
    widgets, UnboundLocalError on [results] (or the tagger's column-exists
    error when the table already has a ROW_ID column); it shows no success
    message, does not rerun and writes nothing to any table; [runner_sprocs]
    keeps its value, or holds the empty list when it was absent. *)
Theorem pipeline_runner_dialog_empty_reference ui catalog tds sch procs bs p tdb tsc tname :
  tds "runner_output" = (tdb, tsc, tname) ->
  t_rows (catalog (fqn tdb tsc tname)) = [] ->
  ui_button ui "Run" = true ->
  exists ss',
    pipeline_runner_dialog ui catalog tds sch procs bs p
    = (Err (if existsb (String.eqb "ROW_ID") (t_cols (catalog (fqn tdb tsc tname)))
            then ColumnExists "ROW_ID" else UnboundLocalError "results"),
       mkPage ss'
              (mkWorld (tbl (p_world p))
                 (trace (p_world p)
                  ++ [EWrite "Select the stored procedure that encapsulates your LLM pipeline.";
                      EDivider; EWrite "Select the reference data."])))
    /\ ss_lookup ss' "runner_sprocs"
       = Some (match ss_lookup (p_ss p) "runner_sprocs" with
               | Some v => v
               | None => PList []
               end).
Proof.
  intros Ht Hr Hb. destruct p as [ss [t tr]]. destruct sch as [db sc].
  unfold pipeline_runner_dialog, sbind, sw, st_write, emit, cur_ss, sindex, sset, sret, ss_index.
  cbv zeta. cbn [p_ss p_world].
  change (String.append "runner" "_sprocs") with "runner_sprocs".
  destruct (ss_lookup ss "runner_sprocs") as [v|] eqn:E; cbn [p_ss p_world].
  - exists ss. rewrite E. cbn [sw ret p_ss p_world]. rewrite Ht, Hb.
    rewrite pipeline_runner_no_rows_any by assumption. simpl.
    split; [now rewrite <- !app_assoc | first [exact E | reflexivity]].
  - exists (dict_set ss "runner_sprocs" (PList [])).
    rewrite ss_lookup_dict_set_eq. cbn [sw ret p_ss p_world]. rewrite Ht, Hb.
    rewrite pipeline_runner_no_rows_any by assumption. simpl.
    split; [now rewrite <- !app_assoc | first [apply ss_lookup_dict_set_eq | reflexivity]].
Qed.

(** ** Session-state keys each function writes *)

(** A page step that writes no session-state key outside [ks]. *)
Definition only_sets {A} (ks : list string) (m : SM A) : Prop :=
  forall p k, ~ In k ks -> ss_lookup (p_ss (snd (m p))) k = ss_lookup (p_ss p) k.

Lemma only_sets_keeps {A} ks (m : SM A) : keeps_ss m -> only_sets ks m.
Proof. intros K p k _. now rewrite K. Qed.

Lemma only_sets_sset ks k v : In k ks -> only_sets ks (sset k v).
Proof.
  intros Hk p k' Hk'. simpl. apply ss_lookup_dict_set_ne. intros ->. contradiction.
Qed.

Lemma only_sets_sbind {A B} ks (m : SM A) (f : A -> SM B) :
  only_sets ks m -> (forall a, only_sets ks (f a)) -> only_sets ks (sbind m f).
Proof.
  intros Hm Hf p k Hk. specialize (Hm p k Hk). unfold sbind.
  destruct (m p) as [[a|e] p1]; simpl in *; [rewrite Hf by exact Hk|]; exact Hm.
Qed.

Lemma only_sets_stry {A} ks (m : SM A) h :
  only_sets ks m -> (forall e, only_sets ks (h e)) -> only_sets ks (stry m h).
Proof.
  intros Hm Hh p k Hk. specialize (Hm p k Hk). unfold stry.
  destruct (m p) as [[a|e] p1]; simpl in *; [exact Hm|].
  destruct e; simpl; try (rewrite Hh by exact Hk); exact Hm.
Qed.

Create HintDb only_sets.
#[local] Hint Resolve only_sets_sbind only_sets_stry : only_sets.

Ltac only_sets_tac :=
  repeat first
    [ progress cbv zeta
    | apply only_sets_sbind
    | apply only_sets_stry
    | apply only_sets_keeps; solve [auto with keeps_ss]
    | apply only_sets_sset; simpl; tauto
    | match goal with |- only_sets _ (if ?b then _ else _) => destruct b end
    | match goal with |- only_sets _ (match ?x with _ => _ end) => destruct x end
    | match goal with |- forall _, _ => intro end ].

(** [run_eval] writes no session-state key other than [metric_result_data],
    [source_sql] and [eval_funnel]. *)
Theorem run_eval_only_sets df_query0 join_data metric_runner :
  only_sets ["metric_result_data"; "source_sql"; "eval_funnel"]
            (run_eval df_query0 join_data metric_runner).
Proof. unfold run_eval. only_sets_tac. Qed.

(** ** Failed custom SQL and the preview *)

Lemma pick_one_nil {A} (o : option nat) : pick_one (@nil A) o = None.
Proof. destruct o as [[|i]|]; reflexivity. Qed.

(** With custom SQL on, a query that fails overwrites [{key}_data] with
    None (a previous selection is lost) after showing the query error, and
    with a join key the join column is reset to None (its selectbox has no
    options); [data_spec] itself completes. *)
Theorem data_spec_failed_sql_clears ui sql_exec catalog fetch_columns tds df_columns
        key instr join_key e p :
  ui_toggle ui (String.append key "_custom_sql") = true ->
  ui_text ui (String.append key "_code_input") <> "" ->
  sql_exec (ui_text ui (String.append key "_code_input")) = Err e ->
  e <> StopException ->
  exists ss',
    data_spec ui sql_exec catalog fetch_columns tds df_columns key instr join_key p
    = (Ok tt, mkPage ss'
                (mkWorld (tbl (p_world p))
                   (trace (p_world p)
                    ++ [EWrite instr; EQuery (ui_text ui (String.append key "_code_input"));
                        EError (String.append "Error: " (exn_str e))])))
    /\ ss_lookup ss' (String.append key "_data") = Some PNone
    /\ (join_key = true -> ss_lookup ss' (String.append key "_join_column") = Some PNone).
Proof.
  intros Ht Hc He Hs. destruct p as [ss [t tr]].
  unfold data_spec. cbv zeta. rewrite Ht.
  destruct (String.eqb_spec (ui_text ui (String.append key "_code_input")) "") as [E|_];
    [contradiction|].
  unfold sbind, sw, st_write, emit, sset, sret, run_sql.
  destruct (String.eqb_spec (ui_text ui (String.append key "_code_input")) "") as [E|_];
    [contradiction|].
  unfold try_except, bind, emit, lift, ret, throw, st_error. cbn [p_ss p_world tbl trace].
  rewrite He. destruct e; try congruence.
  all: destruct join_key; unfold sindex, ss_index, sw, emit; cbn [p_ss p_world tbl trace].
  all: rewrite ?ss_lookup_dict_set_eq; cbn [is_none ret p_ss p_world tbl trace].
  all: rewrite ?pick_one_nil.
  all: eexists; split; [now rewrite <- !app_assoc|].
  all: split; [|intro Hj; try discriminate Hj; apply ss_lookup_dict_set_eq].
  all: first [ apply ss_lookup_dict_set_eq
             | rewrite ss_lookup_dict_set_ne;
               [ apply ss_lookup_dict_set_eq
               | intro E; exact (append_data_ne_join key (eq_sym E)) ] ].
Qed.

(** The preview shows "Limited to 50 rows." and the frame when the data it
    pulls (the 50-row join of the four selections, or the single source
    limited to 50 rows) is not None; the join is announced first. *)
Theorem preview_merge_data_shows_preview join_data df_limit ss d w :
  is_none d = false ->
  (if is_none (ss_get ss "single_source_data")
   then is_none (ss_get ss "inference_data") = false
        /\ is_none (ss_get ss "ground_data") = false
        /\ is_none (ss_get ss "inference_join_column") = false
        /\ is_none (ss_get ss "ground_join_column") = false
        /\ join_data (ss_get ss "inference_data") (ss_get ss "ground_data")
                     (ss_get ss "inference_join_column") (ss_get ss "ground_join_column") 50
           = Ok d
   else df_limit (ss_get ss "single_source_data") 50 = Ok d) ->
  preview_merge_data join_data df_limit ss w
  = (Ok tt, mkWorld (tbl w)
              (trace w ++ (if is_none (ss_get ss "single_source_data") then [EJoin] else [])
                       ++ [EWrite "Limited to 50 rows."; EDataframe])).
Proof.
  intros Hd H. destruct (is_none (ss_get ss "single_source_data")) eqn:Hs;
    unfold preview_merge_data, preview_try, try_except, ss_index, lift, bind, ret, throw,
      emit, st_error, st_write, st_dataframe; rewrite Hs.
  - destruct H as [E1 [E2 [E3 [E4 Hj]]]].
    rewrite (validate_pass ss w E1 E2 E3 E4).
    rewrite (ss_lookup_get ss _ E1), (ss_lookup_get ss _ E2), (ss_lookup_get ss _ E3),
      (ss_lookup_get ss _ E4), Hj, Hd. destruct w. simpl. unfold emit. simpl. now rewrite <- !app_assoc.
  - rewrite (ss_lookup_get ss _ Hs), H, Hd. destruct w. simpl. unfold emit. simpl.
    now rewrite <- !app_assoc.
Qed.

(** ** No join call *)

Definition m_nojoin {A} (m : M A) : Prop :=
  forall w, exists ev, trace (snd (m w)) = trace w ++ ev /\ ~ In EJoin ev.

Lemma m_nojoin_ret {A} (a : A) : m_nojoin (ret a).
Proof. intro w. exists []. rewrite app_nil_r. split; [reflexivity | intros []]. Qed.

Lemma m_nojoin_throw {A} e : m_nojoin (@throw A e).
Proof. intro w. exists []. rewrite app_nil_r. split; [reflexivity | intros []]. Qed.

Lemma m_nojoin_emit ev : ev <> EJoin -> m_nojoin (emit ev).
Proof. intros H w. exists [ev]. split; [reflexivity | intros [E|[]]; congruence]. Qed.

Lemma m_nojoin_lift {A} (r : Result A) : m_nojoin (lift r).
Proof. destruct r; [apply m_nojoin_ret | apply m_nojoin_throw]. Qed.

Lemma m_nojoin_bind {A B} (m : M A) (k : A -> M B) :
  m_nojoin m -> (forall a, m_nojoin (k a)) -> m_nojoin (bind m k).
Proof.
  intros Hm Hk w. destruct (Hm w) as [ev1 [E1 N1]]. unfold bind.
  destruct (m w) as [[a|e] w1]; simpl in *.
  - destruct (Hk a w1) as [ev2 [E2 N2]]. exists (ev1 ++ ev2).
    rewrite E2, E1, app_assoc. split; [reflexivity|].
    intro Hin. apply in_app_or in Hin as [Hin|Hin]; contradiction.
  - exists ev1. split; assumption.
Qed.

Lemma m_nojoin_try_except {A} (m : M A) h :
  m_nojoin m -> (forall e, m_nojoin (h e)) -> m_nojoin (try_except m h).
Proof.
  intros Hm Hh w. destruct (Hm w) as [ev1 [E1 N1]]. unfold try_except.
  destruct (m w) as [[a|e] w1]; simpl in *; [exists ev1; split; assumption|].
  destruct (Hh e w1) as [ev2 [E2 N2]].
  assert (G : exists ev, trace (snd (h e w1)) = trace w ++ ev /\ ~ In EJoin ev).
  { exists (ev1 ++ ev2). rewrite E2, E1, app_assoc. split; [reflexivity|].
    intro Hin. apply in_app_or in Hin as [Hin|Hin]; contradiction. }
  destruct e; try exact G. exists ev1. split; assumption.
Qed.

Lemma m_nojoin_save recs : m_nojoin (save_eval_to_table recs).
Proof. intro w. exists []. rewrite app_nil_r. split; [reflexivity | intros []]. Qed.

Create HintDb nojoin.
#[local] Hint Resolve m_nojoin_ret m_nojoin_throw m_nojoin_lift m_nojoin_bind
  m_nojoin_try_except m_nojoin_save : nojoin.
#[local] Hint Extern 1 (m_nojoin (emit _)) => apply m_nojoin_emit; discriminate : nojoin.

Lemma m_nojoin_ss_index ss k : m_nojoin (ss_index ss k).
Proof. unfold ss_index. destruct (ss_lookup ss k); auto with nojoin. Qed.

Lemma m_nojoin_invoke sproc row : m_nojoin (invoke sproc row).
Proof.
  unfold invoke. apply m_nojoin_bind; [destruct (row_get row "ROW_ID"); auto with nojoin|].
  intro. apply m_nojoin_bind; [auto with nojoin|]. intro. destruct (sproc row); auto with nojoin.
Qed.

Lemma m_nojoin_parallel sproc rows : m_nojoin (parallel sproc rows).
Proof.
  induction rows as [|r rows IH]; simpl; [auto with nojoin|].
  apply m_nojoin_bind; [apply m_nojoin_invoke|]. intro. apply m_nojoin_bind; auto with nojoin.
Qed.

Lemma m_nojoin_batch_loop sproc bs acc : m_nojoin (batch_loop sproc bs acc).
Proof.
  revert acc. induction bs as [|b bs IH]; intro acc; simpl; [auto with nojoin|].
  apply m_nojoin_bind; [apply m_nojoin_parallel | intro; apply IH].
Qed.

Lemma m_nojoin_pipeline_runner sproc bs src : m_nojoin (pipeline_runner sproc bs src).
Proof.
  unfold pipeline_runner. apply m_nojoin_bind; [auto with nojoin|]. intro.
  apply m_nojoin_bind; [apply m_nojoin_batch_loop|]. intros [rs|]; auto with nojoin.
Qed.

Lemma m_nojoin_run_sql sql_exec sql : m_nojoin (run_sql sql_exec sql).
Proof.
  unfold run_sql. destruct (String.eqb sql ""); [auto with nojoin|].
  apply m_nojoin_try_except; [auto with nojoin|]. intro. unfold st_error. auto with nojoin.
Qed.

Lemma m_nojoin_preview join_data df_limit ss :
  is_none (ss_get ss "single_source_data") = false ->
  m_nojoin (preview_merge_data join_data df_limit ss).
Proof.
  intro Hs. unfold preview_merge_data, preview_try. cbv zeta. rewrite Hs.
  apply m_nojoin_bind.
  - apply m_nojoin_try_except.
    + apply m_nojoin_bind; [apply m_nojoin_ss_index | intro; auto with nojoin].
    + intro. unfold st_error. auto with nojoin.
  - intros [d|]; [|auto with nojoin]. destruct (is_none d); [auto with nojoin|].
    unfold st_write, st_dataframe. auto with nojoin.
Qed.

(** A page step that, while [single_source_data] holds [v], keeps it and
    calls no [join_data]. *)
Definition nj (v : PyVal) {A} (m : SM A) : Prop :=
  forall p, ss_lookup (p_ss p) "single_source_data" = Some v ->
    exists ev, trace (p_world (snd (m p))) = trace (p_world p) ++ ev /\ ~ In EJoin ev
      /\ ss_lookup (p_ss (snd (m p))) "single_source_data" = Some v.

Lemma nj_sw v {A} (m : M A) : m_nojoin m -> nj v (sw m).
Proof.
  intros Hm [ss w] Hs. destruct (Hm w) as [ev [E N]]. unfold sw. simpl in *.
  destruct (m w) as [r w1]. simpl in *. exists ev. auto.
Qed.

Lemma nj_sret v {A} (a : A) : nj v (sret a).
Proof. intros p Hs. exists []. rewrite app_nil_r. split; [reflexivity|]. split; [intros []|exact Hs]. Qed.

Lemma nj_sthrow v {A} e : nj v (@sthrow A e).
Proof. intros p Hs. exists []. rewrite app_nil_r. split; [reflexivity|]. split; [intros []|exact Hs]. Qed.

Lemma nj_sindex v k : nj v (sindex k).
Proof. intros p. apply (nj_sw v _ (m_nojoin_ss_index _ k) p). Qed.

Lemma nj_sget v k : nj v (sget k).
Proof. intros p Hs. exists []. rewrite app_nil_r. split; [reflexivity|]. split; [intros []|exact Hs]. Qed.

Lemma nj_sset v k x : k <> "single_source_data" -> nj v (sset k x).
Proof.
  intros Hk p Hs. exists []. rewrite app_nil_r. split; [reflexivity|]. split; [intros []|].
  simpl. rewrite ss_lookup_dict_set_ne by exact Hk. exact Hs.
Qed.

Lemma nj_sbind v {A B} (m : SM A) (f : A -> SM B) :
  nj v m -> (forall a, nj v (f a)) -> nj v (sbind m f).
Proof.
  intros Hm Hf p Hs. destruct (Hm p Hs) as [ev1 [E1 [N1 S1]]]. unfold sbind.
  destruct (m p) as [[a|e] p1]; simpl in *.
  - destruct (Hf a p1 S1) as [ev2 [E2 [N2 S2]]]. exists (ev1 ++ ev2).
    rewrite E2, E1, app_assoc. split; [reflexivity|]. split; [|exact S2].
    intro Hin. apply in_app_or in Hin as [Hin|Hin]; contradiction.
  - exists ev1. auto.
Qed.

Lemma nj_stry v {A} (m : SM A) h :
  nj v m -> (forall e, nj v (h e)) -> nj v (stry m h).
Proof.
  intros Hm Hh p Hs. destruct (Hm p Hs) as [ev1 [E1 [N1 S1]]]. unfold stry.
  destruct (m p) as [[a|e] p1]; simpl in *; [exists ev1; auto|].
  destruct (Hh e p1 S1) as [ev2 [E2 [N2 S2]]].
  assert (G : exists ev, trace (p_world (snd (h e p1))) = trace (p_world p) ++ ev
                         /\ ~ In EJoin ev
                         /\ ss_lookup (p_ss (snd (h e p1))) "single_source_data" = Some v).
  { exists (ev1 ++ ev2). rewrite E2, E1, app_assoc. split; [reflexivity|]. split; [|exact S2].
    intro Hin. apply in_app_or in Hin as [Hin|Hin]; contradiction. }
  destruct e; try exact G. exists ev1. auto.
Qed.

Lemma nj_cur_ss v {A} (f : SessionState -> SM A) :
  (forall ss, ss_lookup ss "single_source_data" = Some v -> nj v (f ss)) -> nj v (sbind cur_ss f).
Proof. intros Hf p Hs. unfold sbind, cur_ss. exact (Hf _ Hs p Hs). Qed.

Lemma nj_sget_single v {A} (f : PyVal -> SM A) :
  nj v (f v) -> nj v (sbind (sget "single_source_data") f).
Proof.
  intros Hf p Hs. unfold sbind, sget.
  replace (ss_get (p_ss p) "single_source_data") with v by (unfold ss_get; now rewrite Hs).
  exact (Hf p Hs).
Qed.

Lemma nj_cur_ss0 v : nj v cur_ss.
Proof. intros p Hs. exists []. rewrite app_nil_r. split; [reflexivity|]. split; [intros []|exact Hs]. Qed.

Create HintDb nj.
#[local] Hint Resolve nj_sret nj_sthrow nj_sindex nj_sget nj_cur_ss0 : nj.

Ltac nj_tac Hv :=
  repeat first
    [ progress cbv zeta
    | solve [auto with nj]
    | apply nj_sget_single; rewrite Hv; cbv beta iota
    | apply nj_sbind
    | apply nj_stry
    | apply nj_sw; unfold st_write, st_error; solve [auto with nojoin]
    | apply nj_sset; discriminate
    | match goal with |- nj _ (if ?b then _ else _) => destruct b end
    | match goal with |- nj _ (match ?x with _ => _ end) => destruct x end
    | match goal with |- forall _, _ => intro end ].

Lemma nj_select_params v ui mname columns req acc : nj v (select_params ui mname columns req acc).
Proof.
  revert acc. induction req as [|[prm d] req IH]; intro acc; simpl; [auto with nj|].
  destruct columns; auto with nj.
Qed.

Lemma nj_select_metrics v ui columns ms acc : nj v (select_metrics ui columns ms acc).
Proof.
  revert acc. induction ms as [|m ms IH]; intro acc; simpl; [auto with nj|].
  apply nj_sbind; [apply nj_sw; auto with nojoin|]. intros _.
  apply nj_sbind; [apply nj_sw; unfold st_write; auto with nojoin|]. intros _.
  apply nj_sbind; [apply nj_select_params | intro; apply IH].
Qed.

Lemma nj_pull_columns v df_columns join_data :
  is_none v = false -> nj v (pull_columns df_columns join_data).
Proof. intro Hv. unfold pull_columns. nj_tac Hv. Qed.

Lemma nj_run_eval v df_query0 join_data metric_runner :
  is_none v = false -> nj v (run_eval df_query0 join_data metric_runner).
Proof. intro Hv. unfold run_eval. nj_tac Hv. Qed.

#[local] Hint Resolve nj_select_params nj_select_metrics : nj.

Lemma nj_configure_metrics v ui df_columns df_query0 join_data metric_runner :
  is_none v = false -> nj v (configure_metrics ui df_columns df_query0 join_data metric_runner).
Proof.
  intro Hv. unfold configure_metrics.
  apply nj_sbind; [apply nj_sw; unfold st_write; auto with nojoin|]. intros _.
  apply nj_sbind; [apply nj_pull_columns, Hv|]. intros cols.
  apply nj_sbind; [auto with nj|]. intros sel.
  destruct sel; auto with nj.
  apply nj_sbind; [auto with nj|]. intros r.
  apply nj_sbind; [apply nj_sset; discriminate|]. intros _.
  destruct (ui_button ui "Run"); [apply nj_run_eval, Hv | auto with nj].
Qed.

Lemma nj_data_spec v ui sql_exec catalog fetch_columns tds df_columns key instr join_key :
  String.append key "_data" <> "single_source_data" ->
  String.append key "_join_column" <> "single_source_data" ->
  nj v (data_spec ui sql_exec catalog fetch_columns tds df_columns key instr join_key).
Proof.
  intros H1 H2. unfold data_spec. cbv zeta.
  apply nj_sbind; [apply nj_sw; unfold st_write; auto with nojoin|]. intros _.
  apply nj_sbind.
  - destruct (ui_toggle ui _); [|apply nj_sset, H1].
    destruct (String.eqb _ ""); [auto with nj|].
    apply nj_sbind; [apply nj_sw, m_nojoin_run_sql | intro; apply nj_sset, H1].
  - intros _. destruct join_key; [|auto with nj].
    apply nj_sbind; [auto with nj|]. intro d.
    apply nj_sbind; [destruct (is_none d); [auto with nj | apply nj_sw; auto with nojoin]|].
    intro. apply nj_sset, H2.
Qed.

Lemma nj_pipeline_runner_dialog v ui catalog tds sch procs bs :
  nj v (pipeline_runner_dialog ui catalog tds sch procs bs).
Proof.
  unfold pipeline_runner_dialog. cbv zeta.
  apply nj_sbind; [apply nj_sw; unfold st_write; auto with nojoin|]. intros _.
  apply nj_sbind; [auto with nj|]. intros ss.
  apply nj_sbind; [destruct (ss_lookup ss _); [auto with nj | apply nj_sset; discriminate]|].
  intros _. apply nj_sbind; [auto with nj|]. intros opts.
  destruct sch as [db sc].
  apply nj_sbind; [apply nj_sw; auto with nojoin|]. intros _.
  apply nj_sbind; [apply nj_sw; unfold st_write; auto with nojoin|]. intros _.
  destruct (tds "runner_output") as [[tdb tsc] tname].
  destruct (ui_button ui "Run"); [|auto with nj].
  apply nj_sbind; [apply nj_sw, m_nojoin_pipeline_runner|]. intros _.
  apply nj_sbind; [apply nj_sw; auto with nojoin | intros _; apply nj_sw; auto with nojoin].
Qed.


(** ** Witnesses *)


Lemma data_spec_join_column_of_data_witness :
  exists p',
    data_spec (ui_of false "" false) (fun _ => Ok PNone) catalog_ex fetch_ex tds_ex frame_columns
      "inference" "Pick data" true (mkPage [] w0) = (Ok tt, p')
    /\ (ss_get (p_ss p') (String.append "inference" "_join_column") = PNone
        \/ exists c cols,
             ss_get (p_ss p') (String.append "inference" "_data") <> PNone
             /\ frame_columns (ss_get (p_ss p') (String.append "inference" "_data")) = Ok cols
             /\ In c cols
             /\ ss_get (p_ss p') (String.append "inference" "_join_column") = PStr c).
Proof.
  eexists. split; [vm_compute; reflexivity|].
  apply (data_spec_join_column_of_data (ui_of false "" false) (fun _ => Ok PNone) catalog_ex
           fetch_ex tds_ex frame_columns "inference" "Pick data" (mkPage [] w0)).
  vm_compute. reflexivity.
Defined.

Lemma data_spec_never_warns_witness :
  In (EWarning "Please enter a SQL query.")
     (trace (p_world (snd (data_spec (ui_of true "" false) (fun _ => Ok PNone) catalog_ex
                             fetch_ex tds_ex frame_columns "inference" "Pick data" false
                             (mkPage [] (mkWorld [] [EWarning "Please enter a SQL query."]))))))
  /\ In (EWarning "Please enter a SQL query.")
        (trace (p_world (mkPage [] (mkWorld [] [EWarning "Please enter a SQL query."])))).
Proof.
  assert (H : In (EWarning "Please enter a SQL query.")
     (trace (p_world (snd (data_spec (ui_of true "" false) (fun _ => Ok PNone) catalog_ex
                             fetch_ex tds_ex frame_columns "inference" "Pick data" false
                             (mkPage [] (mkWorld [] [EWarning "Please enter a SQL query."])))))))
    by (vm_compute; left; reflexivity).
  split; [exact H|].
  exact (data_spec_never_warns (ui_of true "" false) (fun _ => Ok PNone) catalog_ex fetch_ex
           tds_ex frame_columns "inference" "Pick data" false
           (mkPage [] (mkWorld [] [EWarning "Please enter a SQL query."])) _ H).
Defined.

Lemma source_data_selector_spec_witness :
  tds_ex "inference" = ("DB", "SC", "T")
  /\ let selected := pick_many (fetch_ex "DB" "SC" "T")
                       (ui_multi (ui_of false "" false) (String.append "columns_" "inference")) in
     (forall c, In c selected -> In c (fetch_ex "DB" "SC" "T"))
     /\ (selected = [] -> source_data_selector (ui_of false "" false) catalog_ex fetch_ex tds_ex
                            "inference" = PNone)
     /\ (selected <> [] ->
         exists t', source_data_selector (ui_of false "" false) catalog_ex fetch_ex tds_ex
                      "inference" = PFrame t'
           /\ t_cols t' = selected
           /\ List.length (t_rows t') = List.length (t_rows (catalog_ex (fqn "DB" "SC" "T")))
           /\ Forall2 (fun r r' => forall c, In c selected -> row_get r' c = row_get r c)
                      (t_rows (catalog_ex (fqn "DB" "SC" "T"))) (t_rows t')).
Proof.
  split; [reflexivity|].
  apply (source_data_selector_spec (ui_of false "" false) catalog_ex fetch_ex tds_ex
           "inference" "DB" "SC" "T").
  reflexivity.
Defined.

Lemma configure_metrics_param_selection_witness :
  exists p',
    configure_metrics (ui_of false "" false) frame_columns frame_query join_ex runner_ex
      (mkPage ss_ex w0) = (Ok tt, p')
    /\ exists r,
      ss_lookup (p_ss p') "param_selection" = Some (PDict r)
      /\ (forall k, (forall pre, k <> String.append pre "_selection") ->
            ss_lookup (p_ss p') k = ss_lookup ss_ex k)
      /\ NoDup (map fst r)
      /\ (forall k, In k (map fst r) <-> In k (map m_name [metric_ex]))
      /\ forall k v, In (k, v) r ->
           exists m mp, In m [metric_ex] /\ m_name m = k /\ v = PDict mp
             /\ (forall q, In q (map fst mp) <-> In q (map fst (m_required m)))
             /\ forall q x, In (q, x) mp ->
                  x = PNone \/ exists c cols, pulled frame_columns join_ex ss_ex cols
                                              /\ In c cols /\ x = PStr c.
Proof.
  eexists. split; [vm_compute; reflexivity|].
  apply (configure_metrics_param_selection (ui_of false "" false) frame_columns frame_query
           join_ex runner_ex [metric_ex] (mkPage ss_ex w0)); [reflexivity | reflexivity|].
  vm_compute. reflexivity.
Defined.

Lemma configure_metrics_unbound_columns_witness :
  let ss := [("selected_metrics", PMetrics [metric_ex]); ("single_source_data", PStr "T")] in
  exists p', configure_metrics (ui_of false "" false) frame_columns frame_query join_ex runner_ex
               (mkPage ss w0) = (Err (UnboundLocalError "columns"), p')
    /\ p_ss p' = ss
    /\ In (EError (String.append "Error in pulling data: " (exn_str (TypeError "columns"))))
          (trace (p_world p')).
Proof.
  intro ss.
  apply (configure_metrics_unbound_columns (ui_of false "" false) frame_columns frame_query
           join_ex runner_ex [metric_ex] (TypeError "columns") (mkPage ss w0));
    [reflexivity | reflexivity | discriminate | reflexivity |].
  exists metric_ex. split; [left; reflexivity | discriminate].
Defined.

Definition ss_run : SessionState := ("param_selection", PDict []) :: ss_ex.

Lemma run_eval_completes_witness :
  exists p',
    run_eval frame_query join_ex runner_ex (mkPage ss_run w0) = (Ok tt, p')
    /\ (is_none (ss_get ss_run "param_selection") = true ->
          p' = mkPage ss_run (mkWorld []
                 ([] ++ [EError "Please select columns for all required parameters."])))
    /\ (is_none (ss_get ss_run "param_selection") = false ->
        exists d q r ev,
          (if is_none (ss_get ss_run "single_source_data")
           then join_ex (ss_get ss_run "inference_data") (ss_get ss_run "ground_data")
                        (ss_get ss_run "inference_join_column")
                        (ss_get ss_run "ground_join_column") None = Ok d
           else d = ss_get ss_run "single_source_data")
          /\ frame_query d = Ok q
          /\ runner_ex (ss_get ss_run "selected_metrics") (ss_get ss_run "param_selection") d None
             = Ok r
          /\ p_ss p' = dict_set (dict_set (dict_set (dict_set ss_run "metric_result_data" d)
                                   "source_sql" (PStr q)) "metric_result_data" r)
                                "eval_funnel" (PStr "new")
          /\ trace (p_world p') = [] ++ ev ++ [ESwitchPage "pages/results.py"]).
Proof.
  eexists. split; [vm_compute; reflexivity|].
  apply (run_eval_completes frame_query join_ex runner_ex (mkPage ss_run w0)).
  vm_compute. reflexivity.
Defined.

Lemma run_eval_runner_error_partial_witness :
  run_eval frame_query join_ex (fun _ _ _ _ => Err (KeyError "output")) (mkPage ss_run w0)
  = (Err (KeyError "output"),
     mkPage (dict_set (dict_set ss_run "metric_result_data"
                        (ss_get ss_run "single_source_data"))
                      "source_sql" (PStr "SELECT TEXT FROM DB.SC.T"))
            w0).
Proof.
  apply (run_eval_runner_error_partial frame_query join_ex (fun _ _ _ _ => Err (KeyError "output"))
           (mkPage ss_run w0) (PMetrics [metric_ex]) "SELECT TEXT FROM DB.SC.T");
    reflexivity.
Defined.

Definition procs_ex (n : string) (r : Row) : option Value :=
  if String.eqb n "DB.SC.ANSWER" then len_sproc r else None.
Definition procs_ex' (n : string) (r : Row) : option Value :=
  if String.eqb n "DB.SC.ANSWER" then len_sproc r else Some (VInt 0).
Definition ss_sprocs : SessionState := [("runner_sprocs", PList [PStr "ANSWER(VARIANT)"])].

Lemma pipeline_runner_dialog_strips_signature_witness :
  procs_ex' (fqn "DB" "SC" (split_paren0 (fstr (pick_one (dialog_sproc_options ss_sprocs)
                (ui_select (ui_of false "OUT" true) "Select Stored Procedure")))))
  = procs_ex (fqn "DB" "SC" (split_paren0 (fstr (pick_one (dialog_sproc_options ss_sprocs)
                (ui_select (ui_of false "OUT" true) "Select Stored Procedure")))))
  /\ pipeline_runner_dialog (ui_of false "OUT" true) catalog_ex tds_ex ("DB", "SC") procs_ex' 1
       (mkPage ss_sprocs w0)
     = pipeline_runner_dialog (ui_of false "OUT" true) catalog_ex tds_ex ("DB", "SC") procs_ex 1
         (mkPage ss_sprocs w0).
Proof.
  assert (H : procs_ex' (fqn "DB" "SC" (split_paren0 (fstr (pick_one (dialog_sproc_options ss_sprocs)
                (ui_select (ui_of false "OUT" true) "Select Stored Procedure")))))
              = procs_ex (fqn "DB" "SC" (split_paren0 (fstr (pick_one (dialog_sproc_options ss_sprocs)
                (ui_select (ui_of false "OUT" true) "Select Stored Procedure"))))))
    by (vm_compute; reflexivity).
  split; [exact H|].
  exact (pipeline_runner_dialog_strips_signature (ui_of false "OUT" true) catalog_ex tds_ex
           "DB" "SC" procs_ex procs_ex' 1 (mkPage ss_sprocs w0) eq_refl eq_refl H).
Defined.

Lemma pipeline_runner_dialog_empty_reference_witness :
  exists ss',
    pipeline_runner_dialog (ui_of false "OUT" true) (fun _ => mkTable ["TEXT"; "ROW_ID"] [])
      tds_ex ("DB", "SC") procs_ex 1 (mkPage [] w0)
    = (Err (if existsb (String.eqb "ROW_ID") (t_cols (mkTable ["TEXT"; "ROW_ID"] []))
            then ColumnExists "ROW_ID" else UnboundLocalError "results"),
       mkPage ss'
              (mkWorld []
                 ([] ++ [EWrite "Select the stored procedure that encapsulates your LLM pipeline.";
                         EDivider; EWrite "Select the reference data."])))
    /\ ss_lookup ss' "runner_sprocs"
       = Some (match ss_lookup [] "runner_sprocs" with
               | Some v => v
               | None => PList []
               end).
Proof.
  apply (pipeline_runner_dialog_empty_reference (ui_of false "OUT" true)
           (fun _ => mkTable ["TEXT"; "ROW_ID"] []) tds_ex ("DB", "SC") procs_ex 1
           (mkPage [] w0) "DB" "SC" "T"); reflexivity.
Defined.

Lemma data_spec_failed_sql_clears_witness :
  exists ss',
    data_spec (ui_of true "SELEC 1" false) (fun _ => Err (KeyError "syntax error")) catalog_ex
      fetch_ex tds_ex frame_columns "ground" "Pick data" true
      (mkPage [("ground_data", PFrame (sample ["hi"]));
               ("ground_join_column", PStr "TEXT")] w0)
    = (Ok tt, mkPage ss'
                (mkWorld []
                   ([] ++ [EWrite "Pick data"; EQuery "SELEC 1";
                           EError (String.append "Error: " (exn_str (KeyError "syntax error")))])))
    /\ ss_lookup ss' (String.append "ground" "_data") = Some PNone
    /\ (true = true -> ss_lookup ss' (String.append "ground" "_join_column") = Some PNone).
Proof.
  apply (data_spec_failed_sql_clears (ui_of true "SELEC 1" false)
           (fun _ => Err (KeyError "syntax error")) catalog_ex fetch_ex tds_ex frame_columns
           "ground" "Pick data" true (KeyError "syntax error")
           (mkPage [("ground_data", PFrame (sample ["hi"]));
                    ("ground_join_column", PStr "TEXT")] w0));
    first [reflexivity | discriminate].
Defined.

Lemma preview_merge_data_shows_preview_witness :
  preview_merge_data (fun _ _ _ _ _ => Err InvocationError) (fun v _ => Ok v)
    [("single_source_data", PFrame (sample ["hi"]))] w0
  = (Ok tt, mkWorld []
              ([] ++ (if is_none (ss_get [("single_source_data", PFrame (sample ["hi"]))]
                                         "single_source_data") then [EJoin] else [])
                  ++ [EWrite "Limited to 50 rows."; EDataframe])).
Proof.
  apply (preview_merge_data_shows_preview (fun _ _ _ _ _ => Err InvocationError)
           (fun v _ => Ok v) [("single_source_data", PFrame (sample ["hi"]))]
           (PFrame (sample ["hi"])) w0); reflexivity.
Defined.

Lemma run_eval_only_sets_witness :
  ss_lookup (p_ss (snd (run_eval frame_query join_ex runner_ex (mkPage ss_run w0))))
            "selected_metrics"
  = ss_lookup (p_ss (mkPage ss_run w0)) "selected_metrics".
Proof. apply run_eval_only_sets. simpl. intuition discriminate. Defined.

Definition ss_stale : SessionState :=
  [("selected_metrics", PMetrics [metric_ex]); ("eval_funnel", PStr "new");
   ("single_source_data", PFrame (sample ["hi"]))].

